(** * ActivityPub vocabulary: actors and collections

    A shallow embedding of [actor.go] and [collection.go] of the
    [activitypub] package, and the properties of their constructors,
    accessors, decoders, encoders and view conversions.

    Conventions of the embedding.
    - A Go string (and the string-backed types [IRI], [ID],
      [ActivityVocabularyType], [MimeType]) is a [string].
    - A Go slice is an [option (list _)]: [None] is the [nil] slice, and
      [Some []] an allocated slice of length zero.  The encoder tests
      [c.Items != nil], so the two are kept apart.
    - An interface-typed field ([Item], [ObjectOrLink], [LinkOrIRI]) is an
      [option Item]: [None] is the [nil] interface.  The elements of an
      [ItemCollection] are references, so they are plain [Item]s.
    - A pointer receiver that a method mutates is passed in and returned.
    - [int] is modelled in [Z] and [uint] in [N]; both are 64 bit wide, and
      the conversions between them are written out as reductions modulo
      [2^64].
    - A [bytes.Buffer] is the [list byte] written so far. *)

From Stdlib Require Import ZArith String Ascii List Bool Lia.
From Stdlib Require Import Init.Byte.
From stdpp Require Import base option list sets strings pretty.

Set Warnings "-register-all,-clear-no-such-hyp".
Set Default Proof Using "Type".
Local Open Scope string_scope.
Local Open Scope Z_scope.

(** ** Scalar types *)

Definition IRI := string.
Definition ID := IRI.
Definition ActivityVocabularyType := string.
Definition ActivityVocabularyTypes := list ActivityVocabularyType.
Definition MimeType := string.
Definition LangRef := string.

(** [NaturalLanguageValues]: language tag and text, in order. *)
Definition NaturalLanguageValues := list (LangRef * string).

(** [time.Time] as an offset from the zero time, [time.Duration] as a number
    of nanoseconds. *)
Definition Time := Z.
Definition Duration := Z.

(** Go's [error]: [NoError] is [nil]. *)
Inductive error :=
| NoError
| Err (msg : string).

(** Length of a slice; [len] of the [nil] slice is 0. *)
Definition len {A : Type} (s : option (list A)) : Z :=
  match s with
  | None => 0
  | Some l => Z.of_nat (length l)
  end.

(** The elements a [range] loop over the slice visits. *)
Definition elems {A : Type} (s : option (list A)) : list A :=
  match s with
  | None => []
  | Some l => l
  end.

(** The conversions [uint(z)] of an [int] and [int(n)] of a [uint]. *)
Definition uint_of_int (z : Z) : N := Z.to_N (z mod 2 ^ 64).
Definition int_of_uint (n : N) : Z :=
  let m := Z.of_N n mod 2 ^ 64 in
  if m <? 2 ^ 63 then m else m - 2 ^ 64.

(** [uint(len(s))]: a length is an [int] that is not negative, and the
    conversion keeps its value. *)
Definition uint_of_len {A : Type} (s : option (list A)) : N :=
  Z.to_N (len s).

(** ** The CanReceiveActivities types *)

Definition ApplicationType : ActivityVocabularyType := "Application".
Definition GroupType : ActivityVocabularyType := "Group".
Definition OrganizationType : ActivityVocabularyType := "Organization".
Definition PersonType : ActivityVocabularyType := "Person".
Definition ServiceType : ActivityVocabularyType := "Service".

Definition ActorTypes : ActivityVocabularyTypes :=
  [ApplicationType; GroupType; OrganizationType; PersonType; ServiceType].

(** ** Struct types

    The structs refer to [Item], which in turn has the structs as its
    variants, so each struct is declared over the type of items. *)

Module Source.
Record t := mk {
  Content : NaturalLanguageValues;
  MediaType : MimeType
}.
Definition zero : t := mk [] "".
End Source.

Module Endpoints.
Record t {Item : Type} := mk {
  UploadMedia : option Item;
  OauthAuthorizationEndpoint : option Item;
  OauthTokenEndpoint : option Item;
  ProvideClientKey : option Item;
  SignClientKey : option Item;
  SharedInbox : option Item
}.
Arguments t : clear implicits.
Arguments mk {Item}.
End Endpoints.

Module PublicKey.
Record t {Item : Type} := mk {
  ID : ID;
  Owner : option Item;
  PublicKeyPem : string
}.
Arguments t : clear implicits.
Arguments mk {Item}.
Definition zero {Item : Type} : t Item := mk "" None "".
End PublicKey.

(** Modelled from the spec: the [Object] struct is declared outside these
    sources.  It is "the base entity shape" whose fields are the leading
    fields that [Actor] and [Collection] have in common ("Actor = Object +
    extra fields, Collection = Object + extra fields"). *)
Module Object.
Record t {Item : Type} := mk {
  ID : ID;
  Type_ : ActivityVocabularyType;
  Name : NaturalLanguageValues;
  Attachment : option Item;
  AttributedTo : option Item;
  Audience : option (list Item);
  Content : NaturalLanguageValues;
  Context : option Item;
  MediaType : MimeType;
  EndTime : Time;
  Generator : option Item;
  Icon : option Item;
  Image : option Item;
  InReplyTo : option Item;
  Location : option Item;
  Preview : option Item;
  Published : Time;
  Replies : option Item;
  StartTime : Time;
  Summary : NaturalLanguageValues;
  Tag : option (list Item);
  Updated : Time;
  URL : option Item;
  To : option (list Item);
  Bto : option (list Item);
  CC : option (list Item);
  BCC : option (list Item);
  Duration : Duration;
  Likes : option Item;
  Shares : option Item;
  Source : Source.t
}.
Arguments t : clear implicits.
Arguments mk {Item}.
End Object.

Module Actor.
Record t {Item : Type} := mk {
  ID : ID;
  Type_ : ActivityVocabularyType;
  Name : NaturalLanguageValues;
  Attachment : option Item;
  AttributedTo : option Item;
  Audience : option (list Item);
  Content : NaturalLanguageValues;
  Context : option Item;
  MediaType : MimeType;
  EndTime : Time;
  Generator : option Item;
  Icon : option Item;
  Image : option Item;
  InReplyTo : option Item;
  Location : option Item;
  Preview : option Item;
  Published : Time;
  Replies : option Item;
  StartTime : Time;
  Summary : NaturalLanguageValues;
  Tag : option (list Item);
  Updated : Time;
  URL : option Item;
  To : option (list Item);
  Bto : option (list Item);
  CC : option (list Item);
  BCC : option (list Item);
  Duration : Duration;
  Likes : option Item;
  Shares : option Item;
  Source : Source.t;
  Inbox : option Item;
  Outbox : option Item;
  Following : option Item;
  Followers : option Item;
  Liked : option Item;
  PreferredUsername : NaturalLanguageValues;
  Endpoints : option (Endpoints.t Item);
  Streams : option (list (option (list Item)));
  PublicKey : PublicKey.t Item
}.
Arguments t : clear implicits.
Arguments mk {Item}.

(** The zero value of the struct. *)
Definition zero {Item : Type} : t Item :=
  mk "" "" [] None None None [] None "" 0 None None None None None None 0
     None 0 [] None 0 None None None None None 0 None None Source.zero
     None None None None None [] None None PublicKey.zero.
End Actor.

(** The fields of [Actor] that follow the ones it shares with [Object]. *)
Module ActorExtra.
Record t {Item : Type} := mk {
  Inbox : option Item;
  Outbox : option Item;
  Following : option Item;
  Followers : option Item;
  Liked : option Item;
  PreferredUsername : NaturalLanguageValues;
  Endpoints : option (Endpoints.t Item);
  Streams : option (list (option (list Item)));
  PublicKey : PublicKey.t Item
}.
Arguments t : clear implicits.
Arguments mk {Item}.
End ActorExtra.

Module Collection.
Record t {Item : Type} := mk {
  ID : ID;
  Type_ : ActivityVocabularyType;
  Name : NaturalLanguageValues;
  Attachment : option Item;
  AttributedTo : option Item;
  Audience : option (list Item);
  Content : NaturalLanguageValues;
  Context : option Item;
  MediaType : MimeType;
  EndTime : Time;
  Generator : option Item;
  Icon : option Item;
  Image : option Item;
  InReplyTo : option Item;
  Location : option Item;
  Preview : option Item;
  Published : Time;
  Replies : option Item;
  StartTime : Time;
  Summary : NaturalLanguageValues;
  Tag : option (list Item);
  Updated : Time;
  URL : option Item;
  To : option (list Item);
  Bto : option (list Item);
  CC : option (list Item);
  BCC : option (list Item);
  Duration : Duration;
  Likes : option Item;
  Shares : option Item;
  Source : Source.t;
  Current : option Item;
  First : option Item;
  Last : option Item;
  TotalItems : N;
  Items : option (list Item)
}.
Arguments t : clear implicits.
Arguments mk {Item}.

Definition zero {Item : Type} : t Item :=
  mk "" "" [] None None None [] None "" 0 None None None None None None 0
     None 0 [] None 0 None None None None None 0 None None Source.zero
     None None None 0%N None.
End Collection.

(** Modelled from the spec: the [CollectionPage] struct is declared outside
    these sources.  [ToCollection] views it as a [Collection], which it
    extends with the links of a page. *)
Module CollectionPage.
Record t {Item : Type} := mk {
  Base : Collection.t Item;
  PartOf : option Item;
  Next : option Item;
  Prev : option Item
}.
Arguments t : clear implicits.
Arguments mk {Item}.
End CollectionPage.

(** ** Items

    [Item] is the interface every vocabulary entity implements.  A value of
    the interface carries its dynamic type, which is what the type switches
    of [ToActor] and [ToCollection] inspect; a struct can sit behind the
    interface by pointer or by value.  The variants are the dynamic types
    these sources name; the rest of the vocabulary is declared elsewhere. *)

Inductive Ref := Ptr | Val.

(** Modelled from the spec: [OrderedCollection] is declared outside these
    sources; [OrderedCollectionNew] fills the fields [ID], [Type], [Name]
    and [Content] of one, and the spec gives every collection variant the
    shape of [Collection]. *)
Inductive Item :=
| ItIRI (iri : IRI)
| ItObject (r : Ref) (o : Object.t Item)
| ItActor (r : Ref) (a : Actor.t Item)
| ItCollection (r : Ref) (c : Collection.t Item)
| ItCollectionPage (r : Ref) (p : CollectionPage.t Item)
| ItOrderedCollection (r : Ref) (o : Collection.t Item)
| ItItemCollection (l : option (list Item)).

Definition ItemCollection := option (list Item).
Definition ObjectOrLink := option Item.
Definition LinkOrIRI := option Item.

Abbreviation Object := (Object.t Item).
Abbreviation Actor := (Actor.t Item).
Abbreviation Collection := (Collection.t Item).
Abbreviation ActorExtra := (ActorExtra.t Item).
Abbreviation CollectionPage := (CollectionPage.t Item).
Abbreviation OrderedCollection := (Collection.t Item).

(** ** The [ObjectOrLink] capabilities

    Every variant answers [GetID], [GetLink], [GetType], [IsLink],
    [IsObject] and [IsCollection]. *)

Class ObjectOrLinkOps (T : Type) := {
  GetID : T -> ID;
  GetLink : T -> IRI;
  GetType : T -> ActivityVocabularyType;
  IsLink : T -> bool;
  IsObject : T -> bool;
  IsCollection : T -> bool
}.

(** The six methods of [Actor]. *)
#[export] Instance Actor_ops : ObjectOrLinkOps Actor := {|
  GetID a := Actor.ID a;
  GetLink a := Actor.ID a;
  GetType a := Actor.Type_ a;
  IsLink _ := false;
  IsObject _ := true;
  IsCollection _ := false
|}.

(** The six methods of [Collection]. *)
#[export] Instance Collection_ops : ObjectOrLinkOps Collection := {|
  GetID c := Collection.ID c;
  GetLink c := Collection.ID c;
  GetType c := Collection.Type_ c;
  IsLink _ := false;
  IsObject _ := true;
  IsCollection _ := true
|}.

(** Modelled from the spec: the methods of [Object], declared outside these
    sources; an object answers with its own identifier and discriminator,
    and "IsLink() is true only for the bare-link variant". *)
Definition Object_ops : ObjectOrLinkOps Object := {|
  GetID o := Object.ID o;
  GetLink o := Object.ID o;
  GetType o := Object.Type_ o;
  IsLink _ := false;
  IsObject _ := true;
  IsCollection _ := false
|}.

Section Vocabulary.

(** Constants of the package declared outside these sources. *)
Variable ActorType : ActivityVocabularyType.
Variable CollectionType : ActivityVocabularyType.
Variable OrderedCollectionType : ActivityVocabularyType.
Variable CollectionPageType : ActivityVocabularyType.
Variable OrderedCollectionPageType : ActivityVocabularyType.

(** [IRI.Equals(with, checkScheme)] is declared outside these sources.
    Its second argument selects the strict comparison; [false] is the
    tolerant one. *)
Variable Equals : IRI -> IRI -> bool -> bool.

(** The methods of [ItemCollection] are declared outside these sources,
    and the spec does not say what a sequence of items answers. *)
Variable ItemCollection_GetLink : option (list Item) -> IRI.
Variable ItemCollection_GetID : option (list Item) -> ID.

Definition CollectionOfItems : ActivityVocabularyType := "ItemCollection".

Definition CollectionTypes : ActivityVocabularyTypes :=
  [CollectionOfItems; CollectionType; OrderedCollectionType;
   CollectionPageType; OrderedCollectionPageType].

(** Method dispatch of [it.GetLink()] on the dynamic type of [it].
    Modelled from the spec for the variants declared elsewhere: a bare
    link is its own identifier, a page and an ordered collection answer
    like a [Collection]. *)
Definition Item_GetLink (it : Item) : IRI :=
  match it with
  | ItIRI i => i
  | ItObject _ o => GetLink (ObjectOrLinkOps := Object_ops) o
  | ItActor _ a => GetLink a
  | ItCollection _ c => GetLink c
  | ItCollectionPage _ p => GetLink (CollectionPage.Base p)
  | ItOrderedCollection _ o => GetLink o
  | ItItemCollection l => ItemCollection_GetLink l
  end.

(** Method dispatch of [it.GetID()]. *)
Definition Item_GetID (it : Item) : ID :=
  match it with
  | ItIRI i => i
  | ItObject _ o => GetID (ObjectOrLinkOps := Object_ops) o
  | ItActor _ a => GetID a
  | ItCollection _ c => GetID c
  | ItCollectionPage _ p => GetID (CollectionPage.Base p)
  | ItOrderedCollection _ o => GetID o
  | ItItemCollection l => ItemCollection_GetID l
  end.

(** Modelled from the spec: [ActivityVocabularyTypes.Contains], declared
    outside these sources, tells whether the type is "one of" the list. *)
Definition Types_Contains (ts : ActivityVocabularyTypes)
    (typ : ActivityVocabularyType) : bool :=
  existsb (String.eqb typ) ts.

(** Modelled from the spec: [NaturalLanguageValuesNew], declared outside
    these sources, "construct[s] empty". *)
Definition NaturalLanguageValuesNew : NaturalLanguageValues := [].

(** ** Constructors of collections *)

Definition CollectionNew (id : ID) : Collection :=
  let c := Collection.zero in
  Collection.mk id CollectionType
    NaturalLanguageValuesNew
    (Collection.Attachment c) (Collection.AttributedTo c)
    (Collection.Audience c)
    NaturalLanguageValuesNew
    (Collection.Context c) (Collection.MediaType c) (Collection.EndTime c)
    (Collection.Generator c) (Collection.Icon c) (Collection.Image c)
    (Collection.InReplyTo c) (Collection.Location c) (Collection.Preview c)
    (Collection.Published c) (Collection.Replies c)
    (Collection.StartTime c)
    NaturalLanguageValuesNew
    (Collection.Tag c) (Collection.Updated c) (Collection.URL c)
    (Collection.To c) (Collection.Bto c) (Collection.CC c)
    (Collection.BCC c) (Collection.Duration c) (Collection.Likes c)
    (Collection.Shares c) (Collection.Source c) (Collection.Current c)
    (Collection.First c) (Collection.Last c) (Collection.TotalItems c)
    (Collection.Items c).

(** [OrderedCollectionNew] initialises [Name] and [Content], and leaves
    [Summary] at its zero value. *)
Definition OrderedCollectionNew (id : ID) : OrderedCollection :=
  let o := Collection.zero in
  Collection.mk id OrderedCollectionType
    NaturalLanguageValuesNew
    (Collection.Attachment o) (Collection.AttributedTo o)
    (Collection.Audience o)
    NaturalLanguageValuesNew
    (Collection.Context o) (Collection.MediaType o) (Collection.EndTime o)
    (Collection.Generator o) (Collection.Icon o) (Collection.Image o)
    (Collection.InReplyTo o) (Collection.Location o) (Collection.Preview o)
    (Collection.Published o) (Collection.Replies o)
    (Collection.StartTime o) (Collection.Summary o)
    (Collection.Tag o) (Collection.Updated o) (Collection.URL o)
    (Collection.To o) (Collection.Bto o) (Collection.CC o)
    (Collection.BCC o) (Collection.Duration o) (Collection.Likes o)
    (Collection.Shares o) (Collection.Source o) (Collection.Current o)
    (Collection.First o) (Collection.Last o) (Collection.TotalItems o)
    (Collection.Items o).

(** [FollowingNew]: the id [following], the fields [CollectionNew] sets,
    and [TotalItems = 0]. *)
Definition FollowingNew : Collection := CollectionNew "following".

(** ** Collection semantics *)

(** [Collection.Collection] *)
Definition Collection_Collection (c : Collection) : ItemCollection :=
  Collection.Items c.

(** [Collection.Append]: [c.Items = append(c.Items, ob)]; the error is
    always nil. *)
Definition Collection_Append (c : Collection) (ob : Item)
    : Collection * error :=
  (Collection.mk (Collection.ID c) (Collection.Type_ c) (Collection.Name c)
     (Collection.Attachment c) (Collection.AttributedTo c)
     (Collection.Audience c) (Collection.Content c) (Collection.Context c)
     (Collection.MediaType c) (Collection.EndTime c)
     (Collection.Generator c) (Collection.Icon c) (Collection.Image c)
     (Collection.InReplyTo c) (Collection.Location c)
     (Collection.Preview c) (Collection.Published c)
     (Collection.Replies c) (Collection.StartTime c)
     (Collection.Summary c) (Collection.Tag c) (Collection.Updated c)
     (Collection.URL c) (Collection.To c) (Collection.Bto c)
     (Collection.CC c) (Collection.BCC c) (Collection.Duration c)
     (Collection.Likes c) (Collection.Shares c) (Collection.Source c)
     (Collection.Current c) (Collection.First c) (Collection.Last c)
     (Collection.TotalItems c)
     (Some (elems (Collection.Items c) ++ [ob])%list),
   NoError).

(** [Collection.Count]: [TotalItems] when positive, else [len(c.Items)]. *)
Definition Collection_Count (c : Collection) : N :=
  if (0 <? Collection.TotalItems c)%N then Collection.TotalItems c
  else uint_of_len (Collection.Items c).

(** [Collection.Contains]: the loop returns at the first item whose link
    equals [r] with [checkScheme = false]. *)
Fixpoint Contains_loop (r : IRI) (items : list Item) : bool :=
  match items with
  | [] => false
  | iri :: rest =>
      if Equals r (Item_GetLink iri) false then true
      else Contains_loop r rest
  end.

Definition Collection_Contains (c : Collection) (r : IRI) : bool :=
  if len (Collection.Items c) =? 0 then false
  else Contains_loop r (elems (Collection.Items c)).

(** ** Recipient deduplication *)

(** Modelled from the spec: [ItemCollectionDeduplication] is declared
    outside these sources.  Its output is "one ordered sequence with
    duplicates removed, where duplicate means two references resolve to
    the same identifier ... and first-seen-wins for ordering"; audience
    deduplication compares identifiers exactly.  [seen] holds the
    identifiers already kept. *)
Fixpoint dedup (seen : list ID) (l : list Item) : list Item :=
  match l with
  | [] => []
  | it :: rest =>
      if bool_decide (Item_GetID it ∈ seen) then dedup seen rest
      else it :: dedup (Item_GetID it :: seen) rest
  end.

Definition ItemCollectionDeduplication (recCols : list ItemCollection)
    : ItemCollection * error :=
  (Some (dedup [] (concat (map elems recCols))), NoError).

(** ** Actors *)

(** [ActorNew] *)
Definition ActorNew (id : ID) (typ : ActivityVocabularyType) : Actor :=
  let typ := if negb (Types_Contains ActorTypes typ) then ActorType
             else typ in
  let a := Actor.zero in
  let in_ := OrderedCollectionNew "test-inbox" in
  let out := OrderedCollectionNew "test-outbox" in
  let liked := OrderedCollectionNew "test-liked" in
  Actor.mk id typ
    NaturalLanguageValuesNew
    (Actor.Attachment a) (Actor.AttributedTo a) (Actor.Audience a)
    NaturalLanguageValuesNew
    (Actor.Context a) (Actor.MediaType a) (Actor.EndTime a)
    (Actor.Generator a) (Actor.Icon a) (Actor.Image a)
    (Actor.InReplyTo a) (Actor.Location a) (Actor.Preview a)
    (Actor.Published a) (Actor.Replies a) (Actor.StartTime a)
    NaturalLanguageValuesNew
    (Actor.Tag a) (Actor.Updated a) (Actor.URL a)
    (Actor.To a) (Actor.Bto a) (Actor.CC a) (Actor.BCC a)
    (Actor.Duration a) (Actor.Likes a) (Actor.Shares a) (Actor.Source a)
    (Some (ItOrderedCollection Ptr in_))
    (Some (ItOrderedCollection Ptr out))
    (Actor.Following a) (Actor.Followers a)
    (Some (ItOrderedCollection Ptr liked))
    NaturalLanguageValuesNew
    (Actor.Endpoints a) (Actor.Streams a) (Actor.PublicKey a).

Definition ApplicationNew (id : ID) : Actor := ActorNew id ApplicationType.
Definition GroupNew (id : ID) : Actor := ActorNew id GroupType.
Definition OrganizationNew (id : ID) : Actor :=
  ActorNew id OrganizationType.
Definition PersonNew (id : ID) : Actor := ActorNew id PersonType.
Definition ServiceNew (id : ID) : Actor := ActorNew id ServiceType.

(** [Actor.Recipients]: the lists are handed over in the order
    [To], [Bto], [CC], [BCC], [Audience]; the error is dropped. *)
Definition Actor_Recipients (a : Actor) : ItemCollection :=
  let '(rec, _) :=
    ItemCollectionDeduplication
      [Actor.To a; Actor.Bto a; Actor.CC a; Actor.BCC a; Actor.Audience a]
  in rec.

(** [Actor.Clean]: [a.BCC = nil; a.Bto = nil]. *)
Definition Actor_Clean (a : Actor) : Actor :=
  Actor.mk (Actor.ID a) (Actor.Type_ a) (Actor.Name a)
    (Actor.Attachment a) (Actor.AttributedTo a) (Actor.Audience a)
    (Actor.Content a) (Actor.Context a) (Actor.MediaType a)
    (Actor.EndTime a) (Actor.Generator a) (Actor.Icon a) (Actor.Image a)
    (Actor.InReplyTo a) (Actor.Location a) (Actor.Preview a)
    (Actor.Published a) (Actor.Replies a) (Actor.StartTime a)
    (Actor.Summary a) (Actor.Tag a) (Actor.Updated a) (Actor.URL a)
    (Actor.To a)
    None
    (Actor.CC a)
    None
    (Actor.Duration a) (Actor.Likes a) (Actor.Shares a) (Actor.Source a)
    (Actor.Inbox a) (Actor.Outbox a) (Actor.Following a)
    (Actor.Followers a) (Actor.Liked a) (Actor.PreferredUsername a)
    (Actor.Endpoints a) (Actor.Streams a) (Actor.PublicKey a).

(** ** View conversions *)

(** The [unsafe.Pointer] cast of a pointer to an [Object] into a pointer
    to an [Actor]: the leading fields of the result are the fields of the
    object; the actor-only fields are read from the memory that follows
    it. *)
Variable past_Object : Object -> ActorExtra.

Definition Object_as_Actor (o : Object) : Actor :=
  let x := past_Object o in
  Actor.mk (Object.ID o) (Object.Type_ o) (Object.Name o)
    (Object.Attachment o) (Object.AttributedTo o) (Object.Audience o)
    (Object.Content o) (Object.Context o) (Object.MediaType o)
    (Object.EndTime o) (Object.Generator o) (Object.Icon o)
    (Object.Image o) (Object.InReplyTo o) (Object.Location o)
    (Object.Preview o) (Object.Published o) (Object.Replies o)
    (Object.StartTime o) (Object.Summary o) (Object.Tag o)
    (Object.Updated o) (Object.URL o) (Object.To o) (Object.Bto o)
    (Object.CC o) (Object.BCC o) (Object.Duration o) (Object.Likes o)
    (Object.Shares o) (Object.Source o)
    (ActorExtra.Inbox x) (ActorExtra.Outbox x) (ActorExtra.Following x)
    (ActorExtra.Followers x) (ActorExtra.Liked x)
    (ActorExtra.PreferredUsername x) (ActorExtra.Endpoints x)
    (ActorExtra.Streams x) (ActorExtra.PublicKey x).

(** [ToActor]: a type switch on the dynamic type of [it]; [None] is the
    [nil] interface, which no case matches. *)
Definition ToActor (it : option Item) : option Actor * error :=
  match it with
  | Some (ItActor Ptr i) => (Some i, NoError)
  | Some (ItActor Val i) => (Some i, NoError)
  | Some (ItObject Ptr i) => (Some (Object_as_Actor i), NoError)
  | Some (ItObject Val i) => (Some (Object_as_Actor i), NoError)
  | _ => (None, Err "unable to convert object")
  end.

(** [ToCollection]; a [CollectionPage] begins with the fields of a
    [Collection]. *)
Definition ToCollection (it : option Item) : option Collection * error :=
  match it with
  | Some (ItCollection Ptr i) => (Some i, NoError)
  | Some (ItCollection Val i) => (Some i, NoError)
  | Some (ItCollectionPage Ptr i) => (Some (CollectionPage.Base i), NoError)
  | Some (ItCollectionPage Val i) => (Some (CollectionPage.Base i), NoError)
  | _ => (None, Err "unable to convert to collection")
  end.

(** ** Decoding *)

(** The raw document [data []byte] is only handed on to the scanner and
    to the field getters, none of which is part of these sources; its
    type is kept abstract. *)
Variable Data : Type.

(** [jsonparser.GetString] of the scanner library: the string under a key
    and an error, [nil] when the key is present and holds a string. *)
Variable GetString : Data -> string -> string * error.

(** The registry [ItemTyperFunc] is a package variable holding a function
    or [nil]; [JSONGetItemByType] is its default.  The getters that decode
    items read the registry, so they take its current value. *)
Variable ItemTyper : Type.
Variable JSONGetItemByType : ItemTyper.

(** The field getters, declared outside these sources. *)
Variable JSONGetID : Data -> ID.
Variable JSONGetType : Data -> ActivityVocabularyType.
Variable JSONGetNaturalLanguageField :
  Data -> string -> NaturalLanguageValues.
Variable JSONGetString : Data -> string -> string.
Variable JSONGetTime : Data -> string -> Time.
Variable JSONGetDuration : Data -> string -> Duration.
Variable JSONGetInt : Data -> string -> Z.
Variable JSONGetItem : ItemTyper -> Data -> string -> option Item.
Variable JSONGetURIItem : ItemTyper -> Data -> string -> option Item.
Variable JSONGetItems : ItemTyper -> Data -> string -> ItemCollection.
Variable GetAPSource : Data -> Source.t.
Variable JSONGetActorEndpoints :
  ItemTyper -> Data -> string -> option (Endpoints.t Item).
Variable JSONGetStreams :
  ItemTyper -> Data -> string -> option (list ItemCollection).
Variable JSONGetPublicKey : Data -> string -> PublicKey.t Item.

(** [PublicKey.UnmarshalJSON]: three reads, each returning its error at
    once.  The fields assigned before a failed read stay assigned in the
    receiver. *)
Definition PublicKey_UnmarshalJSON (p : PublicKey.t Item) (data : Data)
    : PublicKey.t Item * error :=
  match GetString data "id" with
  | (id, NoError) =>
      let p := PublicKey.mk id (PublicKey.Owner p)
                 (PublicKey.PublicKeyPem p) in
      match GetString data "owner" with
      | (o, NoError) =>
          let p := PublicKey.mk (PublicKey.ID p) (Some (ItIRI o))
                     (PublicKey.PublicKeyPem p) in
          match GetString data "publicKeyPem" with
          | (pub, NoError) =>
              (PublicKey.mk (PublicKey.ID p) (PublicKey.Owner p) pub,
               NoError)
          | (_, err) => (p, err)
          end
      | (_, err) => (p, err)
      end
  | (_, err) => (p, err)
  end.

(** A list field is assigned only when the decoded list is not empty. *)
Definition assign_if_nonempty (got old : ItemCollection) : ItemCollection :=
  if 0 <? len got then got else old.

(** [Actor.UnmarshalJSON].  The first argument is the registry on entry;
    the result holds the registry on exit, the receiver after the call and
    the returned error. *)
Definition Actor_UnmarshalJSON (ItemTyperFunc : option ItemTyper)
    (a : Actor) (data : Data) : option ItemTyper * Actor * error :=
  let typer := default JSONGetItemByType ItemTyperFunc in
  let inReplyTo := JSONGetItems typer data "inReplyTo" in
  let replies := JSONGetItem typer data "replies" in
  (Some typer,
   {| Actor.ID := JSONGetID data;
      Actor.Type_ := JSONGetType data;
      Actor.Name := JSONGetNaturalLanguageField data "name";
      Actor.Content := JSONGetNaturalLanguageField data "content";
      Actor.Summary := JSONGetNaturalLanguageField data "summary";
      Actor.Context := JSONGetItem typer data "context";
      Actor.URL := JSONGetURIItem typer data "url";
      Actor.MediaType := JSONGetString data "mediaType";
      Actor.Generator := JSONGetItem typer data "generator";
      Actor.AttributedTo := JSONGetItem typer data "attributedTo";
      Actor.Attachment := JSONGetItem typer data "attachment";
      Actor.Location := JSONGetItem typer data "location";
      Actor.Published := JSONGetTime data "published";
      Actor.StartTime := JSONGetTime data "startTime";
      Actor.EndTime := JSONGetTime data "endTime";
      Actor.Duration := JSONGetDuration data "duration";
      Actor.Icon := JSONGetItem typer data "icon";
      Actor.Preview := JSONGetItem typer data "preview";
      Actor.Image := JSONGetItem typer data "image";
      Actor.Updated := JSONGetTime data "updated";
      Actor.InReplyTo :=
        if 0 <? len inReplyTo then Some (ItItemCollection inReplyTo)
        else Actor.InReplyTo a;
      Actor.To :=
        assign_if_nonempty (JSONGetItems typer data "to") (Actor.To a);
      Actor.Audience :=
        assign_if_nonempty (JSONGetItems typer data "audience")
          (Actor.Audience a);
      Actor.Bto :=
        assign_if_nonempty (JSONGetItems typer data "bto") (Actor.Bto a);
      Actor.CC :=
        assign_if_nonempty (JSONGetItems typer data "cc") (Actor.CC a);
      Actor.BCC :=
        assign_if_nonempty (JSONGetItems typer data "bcc") (Actor.BCC a);
      Actor.Replies :=
        match replies with
        | Some r => Some r
        | None => Actor.Replies a
        end;
      Actor.Tag :=
        assign_if_nonempty (JSONGetItems typer data "tag") (Actor.Tag a);
      Actor.Likes := JSONGetItem typer data "likes";
      Actor.Shares := JSONGetItem typer data "shares";
      Actor.Source := GetAPSource data;
      Actor.PreferredUsername :=
        JSONGetNaturalLanguageField data "preferredUsername";
      Actor.Followers := JSONGetItem typer data "followers";
      Actor.Following := JSONGetItem typer data "following";
      Actor.Inbox := JSONGetItem typer data "inbox";
      Actor.Outbox := JSONGetItem typer data "outbox";
      Actor.Liked := JSONGetItem typer data "liked";
      Actor.Endpoints := JSONGetActorEndpoints typer data "endpoints";
      Actor.Streams := JSONGetStreams typer data "streams";
      Actor.PublicKey := JSONGetPublicKey data "publicKey" |},
   NoError).

(** [Endpoints.UnmarshalJSON]; it reads the registry as it finds it. *)
Definition Endpoints_UnmarshalJSON (typer : ItemTyper)
    (e : Endpoints.t Item) (data : Data) : Endpoints.t Item * error :=
  ({| Endpoints.OauthAuthorizationEndpoint :=
        JSONGetItem typer data "oauthAuthorizationEndpoint";
      Endpoints.OauthTokenEndpoint :=
        JSONGetItem typer data "oauthTokenEndpoint";
      Endpoints.UploadMedia := JSONGetItem typer data "uploadMedia";
      Endpoints.ProvideClientKey :=
        JSONGetItem typer data "provideClientKey";
      Endpoints.SignClientKey := JSONGetItem typer data "signClientKey";
      Endpoints.SharedInbox := JSONGetItem typer data "sharedInbox" |},
   NoError).

(** [Collection.UnmarshalJSON]; [Likes], [Shares] and [Source] are not
    assigned. *)
Definition Collection_UnmarshalJSON (ItemTyperFunc : option ItemTyper)
    (c : Collection) (data : Data)
    : option ItemTyper * Collection * error :=
  let typer := default JSONGetItemByType ItemTyperFunc in
  let inReplyTo := JSONGetItems typer data "inReplyTo" in
  let replies := JSONGetItem typer data "replies" in
  (Some typer,
   {| Collection.ID := JSONGetID data;
      Collection.Type_ := JSONGetType data;
      Collection.Name := JSONGetNaturalLanguageField data "name";
      Collection.Content := JSONGetNaturalLanguageField data "content";
      Collection.Summary := JSONGetNaturalLanguageField data "summary";
      Collection.Context := JSONGetItem typer data "context";
      Collection.URL := JSONGetURIItem typer data "url";
      Collection.MediaType := JSONGetString data "mediaType";
      Collection.Generator := JSONGetItem typer data "generator";
      Collection.AttributedTo := JSONGetItem typer data "attributedTo";
      Collection.Attachment := JSONGetItem typer data "attachment";
      Collection.Location := JSONGetItem typer data "location";
      Collection.Published := JSONGetTime data "published";
      Collection.StartTime := JSONGetTime data "startTime";
      Collection.EndTime := JSONGetTime data "endTime";
      Collection.Duration := JSONGetDuration data "duration";
      Collection.Icon := JSONGetItem typer data "icon";
      Collection.Preview := JSONGetItem typer data "preview";
      Collection.Image := JSONGetItem typer data "image";
      Collection.Updated := JSONGetTime data "updated";
      Collection.InReplyTo :=
        if 0 <? len inReplyTo then Some (ItItemCollection inReplyTo)
        else Collection.InReplyTo c;
      Collection.To :=
        assign_if_nonempty (JSONGetItems typer data "to")
          (Collection.To c);
      Collection.Audience :=
        assign_if_nonempty (JSONGetItems typer data "audience")
          (Collection.Audience c);
      Collection.Bto :=
        assign_if_nonempty (JSONGetItems typer data "bto")
          (Collection.Bto c);
      Collection.CC :=
        assign_if_nonempty (JSONGetItems typer data "cc")
          (Collection.CC c);
      Collection.BCC :=
        assign_if_nonempty (JSONGetItems typer data "bcc")
          (Collection.BCC c);
      Collection.Replies :=
        match replies with
        | Some r => Some r
        | None => Collection.Replies c
        end;
      Collection.Tag :=
        assign_if_nonempty (JSONGetItems typer data "tag")
          (Collection.Tag c);
      Collection.Likes := Collection.Likes c;
      Collection.Shares := Collection.Shares c;
      Collection.Source := Collection.Source c;
      Collection.TotalItems := uint_of_int (JSONGetInt data "totalItems");
      Collection.Items := JSONGetItems typer data "items";
      Collection.Current := JSONGetItem typer data "current";
      Collection.First := JSONGetItem typer data "first";
      Collection.Last := JSONGetItem typer data "last" |},
   NoError).

(** ** Encoding *)

(** The leading fields of a [Collection], as an [Object]. *)
Definition Collection_as_Object (c : Collection) : Object :=
  Object.mk (Collection.ID c) (Collection.Type_ c) (Collection.Name c)
    (Collection.Attachment c) (Collection.AttributedTo c)
    (Collection.Audience c) (Collection.Content c) (Collection.Context c)
    (Collection.MediaType c) (Collection.EndTime c)
    (Collection.Generator c) (Collection.Icon c) (Collection.Image c)
    (Collection.InReplyTo c) (Collection.Location c)
    (Collection.Preview c) (Collection.Published c)
    (Collection.Replies c) (Collection.StartTime c)
    (Collection.Summary c) (Collection.Tag c) (Collection.Updated c)
    (Collection.URL c) (Collection.To c) (Collection.Bto c)
    (Collection.CC c) (Collection.BCC c) (Collection.Duration c)
    (Collection.Likes c) (Collection.Shares c) (Collection.Source c).

(** The leading fields of an [Actor], as an [Object]. *)
Definition Actor_as_Object (a : Actor) : Object :=
  Object.mk (Actor.ID a) (Actor.Type_ a) (Actor.Name a)
    (Actor.Attachment a) (Actor.AttributedTo a) (Actor.Audience a)
    (Actor.Content a) (Actor.Context a) (Actor.MediaType a)
    (Actor.EndTime a) (Actor.Generator a) (Actor.Icon a) (Actor.Image a)
    (Actor.InReplyTo a) (Actor.Location a) (Actor.Preview a)
    (Actor.Published a) (Actor.Replies a) (Actor.StartTime a)
    (Actor.Summary a) (Actor.Tag a) (Actor.Updated a) (Actor.URL a)
    (Actor.To a) (Actor.Bto a) (Actor.CC a) (Actor.BCC a)
    (Actor.Duration a) (Actor.Likes a) (Actor.Shares a) (Actor.Source a).

(** Modelled from the spec: [OnObject] is declared outside these sources.
    "Encoding a Collection first encodes it as an Object (common
    fields)": the item is viewed as an [Object] through the fields it
    shares with one, and the function is run on that view; an item with
    no such view is an error and the function is not run. *)
Definition ToObject (it : option Item) : option Object * error :=
  match it with
  | Some (ItObject _ o) => (Some o, NoError)
  | Some (ItActor _ a) => (Some (Actor_as_Object a), NoError)
  | Some (ItCollection _ c) => (Some (Collection_as_Object c), NoError)
  | Some (ItCollectionPage _ p) =>
      (Some (Collection_as_Object (CollectionPage.Base p)), NoError)
  | Some (ItOrderedCollection _ o) =>
      (Some (Collection_as_Object o), NoError)
  | _ => (None, Err "unable to convert object")
  end.

Definition OnObject {S : Type} (it : option Item)
    (fn : Object -> S -> S * error) (s : S) : S * error :=
  match ToObject it with
  | (Some o, _) => fn o s
  | (None, err) => (s, err)
  end.

(** The property writers, declared outside these sources.  Each takes the
    buffer and returns it together with its [notEmpty] result. *)
Variable writeObject : list byte -> Object -> list byte * bool.
Variable writeItemProp : list byte -> string -> Item -> list byte * bool.
Variable writeItemCollectionProp :
  list byte -> string -> ItemCollection -> list byte * bool.
Variable writeIntProp : list byte -> string -> Z -> list byte * bool.

(** The closures [writeComma] and [writeCommaIfNotEmpty]. *)
Definition writeComma (b : list byte) : list byte := (b ++ [x2c])%list.

Definition writeCommaIfNotEmpty (b : list byte) (notEmpty : bool)
    : list byte :=
  if notEmpty then writeComma b else b.

(** One guarded step [if f != nil { comma; notEmpty = write(f) ||
    notEmpty }] of the encoder, for an item-valued field. *)
Definition write_item_step (n : string) (f : option Item)
    (st : list byte * bool) : list byte * bool :=
  let '(b, notEmpty) := st in
  match f with
  | Some it =>
      let b := writeCommaIfNotEmpty b notEmpty in
      let '(b, w) := writeItemProp b n it in
      (b, w || notEmpty)
  | None => (b, notEmpty)
  end.

(** The step for [Items], guarded by [c.Items != nil]. *)
Definition write_items_step (items : ItemCollection)
    (st : list byte * bool) : list byte * bool :=
  let '(b, notEmpty) := st in
  match items with
  | Some _ =>
      let b := writeCommaIfNotEmpty b notEmpty in
      let '(b, w) := writeItemCollectionProp b "items" items in
      (b, w || notEmpty)
  | None => (b, notEmpty)
  end.

(** The last step, for [TotalItems], which has no guard. *)
Definition write_total_step (total : N) (st : list byte * bool)
    : list byte * bool :=
  let '(b, notEmpty) := st in
  let b := writeCommaIfNotEmpty b notEmpty in
  let '(b, w) := writeIntProp b "totalItems" (int_of_uint total) in
  (b, w || notEmpty).

(** The buffer and [notEmpty] when the closing test is reached. *)
Definition Collection_MarshalJSON_body (c : Collection)
    : list byte * bool :=
  let b := [x7b] in
  let notEmpty := false in
  let '(st, _) :=
    OnObject (Some (ItCollection Val c))
      (fun o '(b, _) => (writeObject b o, NoError)) (b, notEmpty) in
  let st := write_item_step "current" (Collection.Current c) st in
  let st := write_item_step "first" (Collection.First c) st in
  let st := write_item_step "last" (Collection.Last c) st in
  let st := write_items_step (Collection.Items c) st in
  write_total_step (Collection.TotalItems c) st.

(** [Collection.MarshalJSON]; [None] is the [nil] byte slice. *)
Definition Collection_MarshalJSON (c : Collection)
    : option (list byte) * error :=
  let '(b, notEmpty) := Collection_MarshalJSON_body c in
  if notEmpty then (Some (b ++ [x7d])%list, NoError)
  else (None, NoError).

(** ** A concrete scanner, getters and writers

    The collaborators above are parameters of the development.  The
    definitions below are one simple choice for each of them, over flat
    documents (a list of keys with a string, a number or an array of
    identifiers), used to run the operations on concrete inputs. *)

Inductive SampleValue :=
| VString (s : string)
| VNumber (z : Z)
| VArray (l : list string).

Definition SampleDoc := list (string * SampleValue).

Fixpoint sample_lookup (doc : SampleDoc) (key : string)
    : option SampleValue :=
  match doc with
  | [] => None
  | (k, v) :: rest =>
      if String.eqb k key then Some v else sample_lookup rest key
  end.

Definition sample_GetString (doc : SampleDoc) (key : string)
    : string * error :=
  match sample_lookup doc key with
  | Some (VString s) => (s, NoError)
  | Some _ => ("", Err "Value is not a string")
  | None => ("", Err "Key path not found")
  end.

Definition sample_JSONGetString (doc : SampleDoc) (key : string) : string :=
  fst (sample_GetString doc key).

Definition sample_JSONGetInt (doc : SampleDoc) (key : string) : Z :=
  match sample_lookup doc key with
  | Some (VNumber z) => z
  | _ => 0
  end.

Definition sample_JSONGetNaturalLanguageField (doc : SampleDoc)
    (key : string) : NaturalLanguageValues :=
  match sample_lookup doc key with
  | Some (VString s) => [("", s)]
  | _ => []
  end.

Definition sample_JSONGetItem (_ : unit) (doc : SampleDoc) (key : string)
    : option Item :=
  match sample_lookup doc key with
  | Some (VString s) => Some (ItIRI s)
  | Some (VArray l) => Some (ItItemCollection (Some (map ItIRI l)))
  | _ => None
  end.

Definition sample_JSONGetItems (_ : unit) (doc : SampleDoc) (key : string)
    : ItemCollection :=
  match sample_lookup doc key with
  | Some (VString s) => Some [ItIRI s]
  | Some (VArray l) => Some (map ItIRI l)
  | _ => None
  end.

Definition sample_JSONGetID (doc : SampleDoc) : ID :=
  sample_JSONGetString doc "id".

Definition sample_JSONGetType (doc : SampleDoc) : ActivityVocabularyType :=
  sample_JSONGetString doc "type".

Definition sample_JSONGetTime (doc : SampleDoc) (key : string) : Time :=
  sample_JSONGetInt doc key.

Definition sample_JSONGetDuration (doc : SampleDoc) (key : string)
    : Duration :=
  sample_JSONGetInt doc key.

Definition sample_JSONGetActorEndpoints (_ : unit) (doc : SampleDoc)
    (key : string) : option (Endpoints.t Item) :=
  None.

Definition sample_JSONGetStreams (_ : unit) (doc : SampleDoc) (key : string)
    : option (list ItemCollection) :=
  None.

Definition sample_GetAPSource (doc : SampleDoc) : Source.t :=
  Source.mk (sample_JSONGetNaturalLanguageField doc "source") "".

Definition sample_JSONGetPublicKey (doc : SampleDoc) (key : string)
    : PublicKey.t Item :=
  PublicKey.zero.

(** A comparison for [IRI.Equals]: exact when the scheme is checked, and
    up to a trailing slash otherwise. *)
Definition drop_trailing_slash (s : string) : string :=
  match String.rev s with
  | String "/"%char r => String.rev r
  | _ => s
  end.

Definition sample_Equals (i with_ : IRI) (checkScheme : bool) : bool :=
  if checkScheme then String.eqb i with_
  else String.eqb (drop_trailing_slash i) (drop_trailing_slash with_).

Definition sample_past_Object (_ : Object) : ActorExtra :=
  ActorExtra.mk None None None None None [] None None PublicKey.zero.

(** [name] between quotes, and a colon. *)
Definition sample_key (name : string) : list byte :=
  ([x22] ++ list_byte_of_string name ++ [x22; x3a])%list.

Definition sample_quoted (s : string) : list byte :=
  ([x22] ++ list_byte_of_string s ++ [x22])%list.

Definition sample_link (it : Item) : string :=
  match it with
  | ItIRI i => i
  | ItObject _ o => Object.ID o
  | ItActor _ a => Actor.ID a
  | ItCollection _ c => Collection.ID c
  | ItCollectionPage _ p => Collection.ID (CollectionPage.Base p)
  | ItOrderedCollection _ o => Collection.ID o
  | ItItemCollection _ => ""
  end.

Definition sample_writeObject (b : list byte) (o : Object)
    : list byte * bool :=
  if String.eqb (Object.ID o) "" then (b, false)
  else ((b ++ sample_key "id" ++ sample_quoted (Object.ID o))%list, true).

Definition sample_writeItemProp (b : list byte) (n : string) (i : Item)
    : list byte * bool :=
  ((b ++ sample_key n ++ sample_quoted (sample_link i))%list, true).

(** The parts, with a comma between one and the next. *)
Fixpoint sample_join (parts : list (list byte)) : list byte :=
  match parts with
  | [] => []
  | [p] => p
  | p :: rest => (p ++ [x2c] ++ sample_join rest)%list
  end.

Definition sample_writeItemCollectionProp (b : list byte) (n : string)
    (col : ItemCollection) : list byte * bool :=
  if len col =? 0 then (b, false)
  else ((b ++ sample_key n ++ [x5b]
           ++ sample_join (map (fun it => sample_quoted (sample_link it))
                             (elems col))
           ++ [x5d])%list, true).

Definition sample_writeIntProp (b : list byte) (n : string) (d : Z)
    : list byte * bool :=
  if d =? 0 then (b, false)
  else ((b ++ sample_key n ++ list_byte_of_string (pretty d))%list, true).

(** An actor that is the zero value but for its five address lists. *)
Definition addressed (to bto cc bcc audience : ItemCollection) : Actor :=
  let a := Actor.zero in
  Actor.mk (Actor.ID a) (Actor.Type_ a) (Actor.Name a)
    (Actor.Attachment a) (Actor.AttributedTo a) audience
    (Actor.Content a) (Actor.Context a) (Actor.MediaType a)
    (Actor.EndTime a) (Actor.Generator a) (Actor.Icon a) (Actor.Image a)
    (Actor.InReplyTo a) (Actor.Location a) (Actor.Preview a)
    (Actor.Published a) (Actor.Replies a) (Actor.StartTime a)
    (Actor.Summary a) (Actor.Tag a) (Actor.Updated a) (Actor.URL a)
    to bto cc bcc
    (Actor.Duration a) (Actor.Likes a) (Actor.Shares a) (Actor.Source a)
    (Actor.Inbox a) (Actor.Outbox a) (Actor.Following a)
    (Actor.Followers a) (Actor.Liked a) (Actor.PreferredUsername a)
    (Actor.Endpoints a) (Actor.Streams a) (Actor.PublicKey a).

(** A collection that is the zero value but for its count and items. *)
Definition counted (total : N) (items : ItemCollection) : Collection :=
  let c := Collection.zero in
  Collection.mk (Collection.ID c) (Collection.Type_ c) (Collection.Name c)
    (Collection.Attachment c) (Collection.AttributedTo c)
    (Collection.Audience c) (Collection.Content c) (Collection.Context c)
    (Collection.MediaType c) (Collection.EndTime c)
    (Collection.Generator c) (Collection.Icon c) (Collection.Image c)
    (Collection.InReplyTo c) (Collection.Location c)
    (Collection.Preview c) (Collection.Published c)
    (Collection.Replies c) (Collection.StartTime c)
    (Collection.Summary c) (Collection.Tag c) (Collection.Updated c)
    (Collection.URL c) (Collection.To c) (Collection.Bto c)
    (Collection.CC c) (Collection.BCC c) (Collection.Duration c)
    (Collection.Likes c) (Collection.Shares c) (Collection.Source c)
    (Collection.Current c) (Collection.First c) (Collection.Last c)
    total items.

(** ** Predicates of the statements *)

(** The items that [ToActor] accepts, and those [ToCollection] accepts. *)
Definition Actor_view (it : option Item) : bool :=
  match it with
  | Some (ItActor _ _) | Some (ItObject _ _) => true
  | _ => false
  end.

Definition Collection_view (it : option Item) : bool :=
  match it with
  | Some (ItCollection _ _) | Some (ItCollectionPage _ _) => true
  | _ => false
  end.

(** No write of the encoder reports output: the common part, the guarded
    writes that are made, and the write of [totalItems]. *)
Definition writes_nothing (c : Collection) : Prop :=
  (forall b, snd (writeObject b (Collection_as_Object c)) = false) /\
  (forall b it, Collection.Current c = Some it ->
                snd (writeItemProp b "current" it) = false) /\
  (forall b it, Collection.First c = Some it ->
                snd (writeItemProp b "first" it) = false) /\
  (forall b it, Collection.Last c = Some it ->
                snd (writeItemProp b "last" it) = false) /\
  (forall b, Collection.Items c <> None ->
             snd (writeItemCollectionProp b "items" (Collection.Items c))
             = false) /\
  (forall b, snd (writeIntProp b "totalItems"
                    (int_of_uint (Collection.TotalItems c))) = false).












(** ** Helpers of the further statements *)

(** [Append] applied to the items of a list, one after the other. *)
Definition append_each (c : Collection) (obs : list Item) : Collection :=
  fold_left (fun c ob => fst (Collection_Append c ob)) obs c.

(** The receiver as a decode of an actor sees it: the zero value but for
    the eight fields that are assigned under a guard. *)
Definition Actor_guarded_only (a : Actor) : Actor :=
  let z := Actor.zero in
  Actor.mk (Actor.ID z) (Actor.Type_ z) (Actor.Name z)
    (Actor.Attachment z) (Actor.AttributedTo z)
    (Actor.Audience a)
    (Actor.Content z) (Actor.Context z) (Actor.MediaType z)
    (Actor.EndTime z) (Actor.Generator z) (Actor.Icon z) (Actor.Image z)
    (Actor.InReplyTo a)
    (Actor.Location z) (Actor.Preview z) (Actor.Published z)
    (Actor.Replies a)
    (Actor.StartTime z) (Actor.Summary z)
    (Actor.Tag a)
    (Actor.Updated z) (Actor.URL z)
    (Actor.To a) (Actor.Bto a) (Actor.CC a) (Actor.BCC a)
    (Actor.Duration z) (Actor.Likes z) (Actor.Shares z) (Actor.Source z)
    (Actor.Inbox z) (Actor.Outbox z) (Actor.Following z)
    (Actor.Followers z) (Actor.Liked z) (Actor.PreferredUsername z)
    (Actor.Endpoints z) (Actor.Streams z) (Actor.PublicKey z).

(** The same for a collection, whose decode also leaves [Likes], [Shares]
    and [Source] alone. *)
Definition Collection_kept_only (c : Collection) : Collection :=
  let z := Collection.zero in
  Collection.mk (Collection.ID z) (Collection.Type_ z) (Collection.Name z)
    (Collection.Attachment z) (Collection.AttributedTo z)
    (Collection.Audience c)
    (Collection.Content z) (Collection.Context z) (Collection.MediaType z)
    (Collection.EndTime z) (Collection.Generator z) (Collection.Icon z)
    (Collection.Image z)
    (Collection.InReplyTo c)
    (Collection.Location z) (Collection.Preview z) (Collection.Published z)
    (Collection.Replies c)
    (Collection.StartTime z) (Collection.Summary z)
    (Collection.Tag c)
    (Collection.Updated z) (Collection.URL z)
    (Collection.To c) (Collection.Bto c) (Collection.CC c)
    (Collection.BCC c)
    (Collection.Duration z)
    (Collection.Likes c) (Collection.Shares c) (Collection.Source c)
    (Collection.Current z) (Collection.First z) (Collection.Last z)
    (Collection.TotalItems z) (Collection.Items z).

(** What each write of the encoder reports when it starts from an empty
    buffer; a write that is not made reports nothing. *)
Definition item_flag (n : string) (f : option Item) : bool :=
  match f with
  | Some it => snd (writeItemProp [] n it)
  | None => false
  end.

Definition items_flag (c : Collection) : bool :=
  match Collection.Items c with
  | Some _ => snd (writeItemCollectionProp [] "items" (Collection.Items c))
  | None => false
  end.

(** The range of a 64 bit [int]. *)
Definition int64_range (z : Z) : Prop := - 2 ^ 63 <= z < 2 ^ 63.

(** * Properties *)

Local Open Scope list_scope.

(** ** Collection semantics *)

Lemma uint_of_len_length {A : Type} (s : option (list A)) :
  uint_of_len s = N.of_nat (length (elems s)).
Proof.
  destruct s as [l|]; unfold uint_of_len; simpl.
  - now rewrite <- nat_N_Z, N2Z.id.
  - reflexivity.
Qed.

(** C3. [Count] returns [TotalItems] whenever it is not zero, and the
    length of [Items] otherwise; a collection with [TotalItems = 5] and
    two items counts 5, one with [TotalItems = 0] and three items
    counts 3. *)
Theorem Collection_Count_policy :
  (forall c : Collection,
      (Collection.TotalItems c <> 0%N ->
       Collection_Count c = Collection.TotalItems c) /\
      (Collection.TotalItems c = 0%N ->
       Collection_Count c
       = N.of_nat (length (elems (Collection.Items c))))) /\
  (forall i1 i2 : Item,
      Collection_Count (counted 5 (Some [i1; i2])) = 5%N) /\
  (forall i1 i2 i3 : Item,
      Collection_Count (counted 0 (Some [i1; i2; i3])) = 3%N).
Proof.
  split; [|split; reflexivity].
  intros c; unfold Collection_Count.
  destruct (N.ltb_spec 0 (Collection.TotalItems c)) as [Hpos|Hzero].
  - split; [reflexivity|]. intros H0. rewrite H0 in Hpos. lia.
  - split.
    + intros Hne. lia.
    + intros _. apply uint_of_len_length.
Qed.

Lemma Contains_loop_spec (r : IRI) (items : list Item) :
  Contains_loop r items = true <->
  exists it, it ∈ items /\ Equals r (Item_GetLink it) false = true.
Proof.
  induction items as [|x rest IH]; simpl.
  - split; [discriminate|]. intros (it & Hin & _).
    now apply not_elem_of_nil in Hin.
  - destruct (Equals r (Item_GetLink x) false) eqn:Hx.
    + split; [|reflexivity]. intros _. exists x. split; [left|assumption].
    + rewrite IH. split.
      * intros (it & Hin & Hit). exists it. split; [now right|assumption].
      * intros (it & Hin & Hit). apply elem_of_cons in Hin as [->|Hin].
        -- congruence.
        -- now exists it.
Qed.

(** C7. [Contains] answers false for a collection without items, and
    otherwise true exactly when the link of some item equals [r] under
    the comparison that does not check the scheme (the tolerant mode). *)
Theorem Collection_Contains_tolerant (c : Collection) (r : IRI) :
  (len (Collection.Items c) = 0 -> Collection_Contains c r = false) /\
  (Collection_Contains c r = true <->
   exists it, it ∈ elems (Collection.Items c) /\
              Equals r (Item_GetLink it) false = true).
Proof.
  unfold Collection_Contains. split.
  - intros ->. reflexivity.
  - destruct (Z.eqb_spec (len (Collection.Items c)) 0) as [Hz|Hnz].
    + split; [discriminate|]. intros (it & Hin & _).
      destruct (Collection.Items c) as [[|x l]|]; simpl in *;
        try (now apply not_elem_of_nil in Hin). lia.
    + apply Contains_loop_spec.
Qed.

(** ** Actors *)

(** C5. After [Clean] the fields [Bto] and [BCC] are empty, and every
    other field, [To] and [CC] among them, is what it was. *)
Theorem Actor_Clean_frame (a : Actor) :
  let a' := Actor_Clean a in
  (Actor.Bto a' = None /\ len (Actor.Bto a') = 0) /\
  (Actor.BCC a' = None /\ len (Actor.BCC a') = 0) /\
  Actor.To a' = Actor.To a /\
  Actor.CC a' = Actor.CC a /\
  Actor.ID a' = Actor.ID a /\
  Actor.Type_ a' = Actor.Type_ a /\
  Actor.Name a' = Actor.Name a /\
  Actor.Attachment a' = Actor.Attachment a /\
  Actor.AttributedTo a' = Actor.AttributedTo a /\
  Actor.Audience a' = Actor.Audience a /\
  Actor.Content a' = Actor.Content a /\
  Actor.Context a' = Actor.Context a /\
  Actor.MediaType a' = Actor.MediaType a /\
  Actor.EndTime a' = Actor.EndTime a /\
  Actor.Generator a' = Actor.Generator a /\
  Actor.Icon a' = Actor.Icon a /\
  Actor.Image a' = Actor.Image a /\
  Actor.InReplyTo a' = Actor.InReplyTo a /\
  Actor.Location a' = Actor.Location a /\
  Actor.Preview a' = Actor.Preview a /\
  Actor.Published a' = Actor.Published a /\
  Actor.Replies a' = Actor.Replies a /\
  Actor.StartTime a' = Actor.StartTime a /\
  Actor.Summary a' = Actor.Summary a /\
  Actor.Tag a' = Actor.Tag a /\
  Actor.Updated a' = Actor.Updated a /\
  Actor.URL a' = Actor.URL a /\
  Actor.Duration a' = Actor.Duration a /\
  Actor.Likes a' = Actor.Likes a /\
  Actor.Shares a' = Actor.Shares a /\
  Actor.Source a' = Actor.Source a /\
  Actor.Inbox a' = Actor.Inbox a /\
  Actor.Outbox a' = Actor.Outbox a /\
  Actor.Following a' = Actor.Following a /\
  Actor.Followers a' = Actor.Followers a /\
  Actor.Liked a' = Actor.Liked a /\
  Actor.PreferredUsername a' = Actor.PreferredUsername a /\
  Actor.Endpoints a' = Actor.Endpoints a /\
  Actor.Streams a' = Actor.Streams a /\
  Actor.PublicKey a' = Actor.PublicKey a.
Proof.
  destruct a; cbn. repeat split.
Qed.



(** ** View conversions *)

(** C2. [ToActor] succeeds on an item that is an [Actor], or an [Object]
    viewed through the fields it shares with one, and the actor returned
    has the id of the item; [ToCollection] on an [Actor] returns an error
    value; and each of the two returns its error value, and no result,
    for every item that is not of a variant it accepts. *)
Theorem view_conversions :
  (forall (r : Ref) (a : Actor),
      ToActor (Some (ItActor r a)) = (Some a, NoError) /\
      Actor.ID a = Item_GetID (ItActor r a)) /\
  (forall (r : Ref) (o : Object),
      ToActor (Some (ItObject r o)) = (Some (Object_as_Actor o), NoError) /\
      Actor.ID (Object_as_Actor o) = Item_GetID (ItObject r o)) /\
  (forall (r : Ref) (a : Actor),
      ToCollection (Some (ItActor r a))
      = (None, Err "unable to convert to collection")) /\
  (forall it : option Item,
      Actor_view it = false ->
      ToActor it = (None, Err "unable to convert object")) /\
  (forall it : option Item,
      Collection_view it = false ->
      ToCollection it = (None, Err "unable to convert to collection")).
Proof.
  repeat split.
  - now destruct r.
  - now destruct r.
  - intros [[i|r o|r a|r c|r p|r o|l]|]; cbn; try discriminate;
      try reflexivity; now destruct r.
  - intros [[i|r o|r a|r c|r p|r o|l]|]; cbn; try discriminate;
      try reflexivity; now destruct r.
Qed.

(** ** Decoding *)

(** C6. Decoding a public key succeeds exactly when the three reads of
    [id], [owner] and [publicKeyPem] all succeed, that is when each is
    present as a string; the record then holds the three values.  When
    one of them fails the call returns that error. *)
Theorem PublicKey_UnmarshalJSON_requires_all (p : PublicKey.t Item)
    (data : Data) :
  (snd (PublicKey_UnmarshalJSON p data) = NoError <->
   snd (GetString data "id") = NoError /\
   snd (GetString data "owner") = NoError /\
   snd (GetString data "publicKeyPem") = NoError) /\
  (snd (PublicKey_UnmarshalJSON p data) = NoError ->
   fst (PublicKey_UnmarshalJSON p data)
   = PublicKey.mk (fst (GetString data "id"))
       (Some (ItIRI (fst (GetString data "owner"))))
       (fst (GetString data "publicKeyPem"))) /\
  (forall msg, snd (GetString data "id") = Err msg ->
               snd (PublicKey_UnmarshalJSON p data) = Err msg) /\
  (forall msg, snd (GetString data "id") = NoError ->
               snd (GetString data "owner") = Err msg ->
               snd (PublicKey_UnmarshalJSON p data) = Err msg) /\
  (forall msg, snd (GetString data "id") = NoError ->
               snd (GetString data "owner") = NoError ->
               snd (GetString data "publicKeyPem") = Err msg ->
               snd (PublicKey_UnmarshalJSON p data) = Err msg).
Proof.
  unfold PublicKey_UnmarshalJSON.
  destruct (GetString data "id") as [id [|e1]];
    destruct (GetString data "owner") as [o [|e2]];
    destruct (GetString data "publicKeyPem") as [pub [|e3]]; cbn;
    repeat split; intros; try congruence;
    repeat match goal with H : _ /\ _ |- _ => destruct H end;
    congruence.
Qed.

(** ** Recipients *)

Lemma dedup_elem (l : list Item) : forall (seen : list ID) (it : Item),
  it ∈ dedup seen l -> it ∈ l /\ Item_GetID it ∉ seen.
Proof.
  induction l as [|x rest IH]; intros seen it; simpl.
  - intros Hin. now apply not_elem_of_nil in Hin.
  - case_bool_decide as Hseen.
    + intros Hin. apply IH in Hin as [Hin Hns]. split; [now right|assumption].
    + intros Hin. apply elem_of_cons in Hin as [->|Hin].
      * split; [left|assumption].
      * apply IH in Hin as [Hin Hns]. split; [now right|].
        intros Hs. apply Hns. now right.
Qed.

Lemma dedup_sublist (l : list Item) : forall seen : list ID,
  dedup seen l `sublist_of` l.
Proof.
  induction l as [|x rest IH]; intros seen; simpl.
  - constructor.
  - case_bool_decide.
    + apply sublist_cons, IH.
    + apply sublist_skip, IH.
Qed.

Lemma dedup_NoDup (l : list Item) : forall seen : list ID,
  NoDup (Item_GetID <$> dedup seen l).
Proof.
  induction l as [|x rest IH]; intros seen; simpl.
  - constructor.
  - case_bool_decide as Hseen; [apply IH|].
    rewrite fmap_cons. constructor; [|apply IH].
    intros Hin. apply list_elem_of_fmap in Hin as (y & Hid & Hy).
    apply dedup_elem in Hy as [_ Hns]. apply Hns. rewrite <- Hid. left.
Qed.

Lemma dedup_covers (l : list Item) : forall (seen : list ID) (it : Item),
  it ∈ l ->
  Item_GetID it ∈ seen \/ Item_GetID it ∈ (Item_GetID <$> dedup seen l).
Proof.
  induction l as [|x rest IH]; intros seen it Hin; simpl.
  - now apply not_elem_of_nil in Hin.
  - apply elem_of_cons in Hin as [->|Hin].
    + case_bool_decide as Hseen; [now left|]. right. rewrite fmap_cons. left.
    + case_bool_decide as Hseen; [now apply IH|].
      destruct (IH (Item_GetID x :: seen) it Hin) as [Hs|Hd].
      * apply elem_of_cons in Hs as [Heq|Hs]; [|now left].
        right. rewrite fmap_cons, Heq. left.
      * right. rewrite fmap_cons. now right.
Qed.

Lemma dedup_first_seen (l1 : list Item) :
  forall (seen : list ID) (x : Item) (l2 : list Item),
  Item_GetID x ∉ seen ->
  Item_GetID x ∉ (Item_GetID <$> l1) ->
  exists r2, dedup seen (l1 ++ x :: l2) = dedup seen l1 ++ x :: r2.
Proof.
  induction l1 as [|y l1 IH]; intros seen x l2 Hseen Hl1; simpl.
  - rewrite bool_decide_eq_false_2 by assumption. now eexists.
  - rewrite fmap_cons in Hl1. apply not_elem_of_cons in Hl1 as [Hne Hl1].
    case_bool_decide as Hy.
    + now apply IH.
    + destruct (IH (Item_GetID y :: seen) x l2) as [r2 Hr2].
      * apply not_elem_of_cons. now split.
      * assumption.
      * exists r2. simpl. now rewrite Hr2.
Qed.

(** The five address lists of an actor, one after the other. *)
Lemma Actor_Recipients_unfold (a : Actor) :
  elems (Actor_Recipients a)
  = dedup [] (elems (Actor.To a) ++ elems (Actor.Bto a)
              ++ elems (Actor.CC a) ++ elems (Actor.BCC a)
              ++ elems (Actor.Audience a)).
Proof.
  unfold Actor_Recipients, ItemCollectionDeduplication. simpl.
  now rewrite app_nil_r.
Qed.

(** C4. [Recipients] merges [To], [Bto], [CC], [BCC] and [Audience], in
    that order, into one sequence: no identifier occurs in it twice, every
    reference of the five lists has its identifier in it, the references
    kept stand in the order of the concatenation, and a reference that is
    the first of its identifier stands right after the references kept
    from what precedes it.  For [to = [A, B]], [cc = [B, C]], [bcc = [D]]
    and nothing else the result is [A, B, C, D]. *)
Theorem Actor_Recipients_dedup (a : Actor) :
  let all := elems (Actor.To a) ++ elems (Actor.Bto a) ++ elems (Actor.CC a)
             ++ elems (Actor.BCC a) ++ elems (Actor.Audience a) in
  let rec := elems (Actor_Recipients a) in
  NoDup (Item_GetID <$> rec) /\
  (forall it, it ∈ all -> Item_GetID it ∈ (Item_GetID <$> rec)) /\
  rec `sublist_of` all /\
  (forall l1 x l2,
      all = l1 ++ x :: l2 ->
      Item_GetID x ∉ (Item_GetID <$> l1) ->
      exists r1 r2,
        rec = r1 ++ x :: r2 /\
        r1 `sublist_of` l1 /\
        forall y, y ∈ l1 -> Item_GetID y ∈ (Item_GetID <$> r1)) /\
  (forall A B C D : IRI,
      A <> B -> A <> C -> A <> D -> B <> C -> B <> D -> C <> D ->
      Actor_Recipients
        (addressed (Some [ItIRI A; ItIRI B]) (Some [])
           (Some [ItIRI B; ItIRI C]) (Some [ItIRI D]) (Some []))
      = Some [ItIRI A; ItIRI B; ItIRI C; ItIRI D]).
Proof.
  cbn zeta. rewrite Actor_Recipients_unfold.
  split; [apply dedup_NoDup|].
  split.
  { intros it Hin. destruct (dedup_covers _ [] it Hin) as [Hs|Hd].
    - now apply not_elem_of_nil in Hs.
    - assumption. }
  split; [apply dedup_sublist|].
  split.
  { intros l1 x l2 Hall Hfirst. rewrite Hall.
    destruct (dedup_first_seen l1 [] x l2) as [r2 Hr2].
    - apply not_elem_of_nil.
    - assumption.
    - exists (dedup [] l1), r2. split; [assumption|].
      split; [apply dedup_sublist|].
      intros y Hy. destruct (dedup_covers _ [] y Hy) as [Hs|Hd].
      + now apply not_elem_of_nil in Hs.
      + assumption. }
  intros A B C D HAB HAC HAD HBC HBD HCD.
  unfold Actor_Recipients, ItemCollectionDeduplication, addressed. simpl.
  clear - HAB HAC HAD HBC HBD HCD.
  repeat case_bool_decide; first [reflexivity | exfalso; set_solver].
Qed.

(** ** Encoding *)

Lemma write_item_step_quiet (n : string) (f : option Item) (b : list byte) :
  (forall b' it, f = Some it -> snd (writeItemProp b' n it) = false) ->
  snd (write_item_step n f (b, false)) = false.
Proof.
  intros H. unfold write_item_step. destruct f as [it|]; [|reflexivity].
  specialize (H (writeCommaIfNotEmpty b false) it eq_refl).
  destruct (writeItemProp _ n it) as [b' w]. simpl in *. now rewrite H.
Qed.

(** C10. When no property write reports output, [totalItems] included,
    [MarshalJSON] returns the nil byte slice and the nil error: neither an
    empty object nor an error. *)
Theorem Collection_MarshalJSON_nothing_written (c : Collection) :
  writes_nothing c ->
  Collection_MarshalJSON c = (None, NoError).
Proof.
  intros (Hobj & Hcur & Hfirst & Hlast & Hitems & Htotal).
  unfold Collection_MarshalJSON, Collection_MarshalJSON_body, OnObject.
  cbn [ToObject].
  specialize (Hobj [x7b]).
  destruct (writeObject [x7b] (Collection_as_Object c)) as [b0 w0].
  simpl in Hobj. subst w0.
  pose proof (write_item_step_quiet "current" _ b0 Hcur) as H1.
  destruct (write_item_step "current" _ (b0, false)) as [b1 w1].
  simpl in H1. subst w1.
  pose proof (write_item_step_quiet "first" _ b1 Hfirst) as H2.
  destruct (write_item_step "first" _ (b1, false)) as [b2 w2].
  simpl in H2. subst w2.
  pose proof (write_item_step_quiet "last" _ b2 Hlast) as H3.
  destruct (write_item_step "last" _ (b2, false)) as [b3 w3].
  simpl in H3. subst w3.
  assert (H4 : snd (write_items_step (Collection.Items c) (b3, false))
               = false).
  { unfold write_items_step.
    destruct (Collection.Items c) as [l|] eqn:Hl; [|reflexivity].
    specialize (Hitems (writeCommaIfNotEmpty b3 false)).
    destruct (writeItemCollectionProp _ "items" (Some l)) as [b' w].
    simpl in *. rewrite Hitems; [reflexivity|discriminate]. }
  destruct (write_items_step _ (b3, false)) as [b4 w4].
  simpl in H4. subst w4.
  unfold write_total_step.
  specialize (Htotal (writeCommaIfNotEmpty b4 false)).
  destruct (writeIntProp _ "totalItems" _) as [b5 w5].
  simpl in Htotal. subst w5. reflexivity.
Qed.

Section WriterContract.

(** Modelled from the spec: the property writers are declared outside these
    sources.  A writer appends to the buffer, and what it appends does not
    depend on what the buffer holds; "empty containers ... are omitted
    entirely", and only "present (non-zero/non-empty) fields" are
    written. *)
Hypothesis writeObject_appends : forall b o,
  writeObject b o = (b ++ fst (writeObject [] o), snd (writeObject [] o)).
Hypothesis writeItemProp_appends : forall b n it,
  writeItemProp b n it
  = (b ++ fst (writeItemProp [] n it), snd (writeItemProp [] n it)).
Hypothesis writeItemCollectionProp_appends : forall b n col,
  writeItemCollectionProp b n col
  = (b ++ fst (writeItemCollectionProp [] n col),
     snd (writeItemCollectionProp [] n col)).
Hypothesis writeIntProp_appends : forall b n d,
  writeIntProp b n d
  = (b ++ fst (writeIntProp [] n d), snd (writeIntProp [] n d)).
Hypothesis writeItemCollectionProp_omits_empty : forall n col,
  len col = 0 -> fst (writeItemCollectionProp [] n col) = [].
Hypothesis writeIntProp_omits_zero : forall n,
  fst (writeIntProp [] n 0) = [].






End WriterContract.

(** ** Decoding of actors and collections *)



(** * Further properties *)

(** ** Appending to a collection *)

Lemma Collection_Append_items (c : Collection) (ob : Item) :
  Collection.Items (fst (Collection_Append c ob))
  = Some (elems (Collection.Items c) ++ [ob]).
Proof. reflexivity. Qed.

Lemma append_each_fields (c : Collection) (obs : list Item) :
  elems (Collection.Items (append_each c obs))
  = elems (Collection.Items c) ++ obs /\
  (obs <> [] ->
   Collection.Items (append_each c obs)
   = Some (elems (Collection.Items c) ++ obs)) /\
  Collection.TotalItems (append_each c obs) = Collection.TotalItems c /\
  Collection_as_Object (append_each c obs) = Collection_as_Object c /\
  Collection.Current (append_each c obs) = Collection.Current c /\
  Collection.First (append_each c obs) = Collection.First c /\
  Collection.Last (append_each c obs) = Collection.Last c.
Proof.
  revert c. induction obs as [|ob obs IH]; intros c.
  - cbn. rewrite app_nil_r. repeat split. intros H. now destruct H.
  - change (append_each c (ob :: obs))
      with (append_each (fst (Collection_Append c ob)) obs).
    destruct (IH (fst (Collection_Append c ob)))
      as (Hitems & Hsome & Htotal & Hobj & Hcur & Hfirst & Hlast).
    rewrite Collection_Append_items in Hitems, Hsome. cbn [elems] in *.
    rewrite <- app_assoc in Hitems, Hsome. cbn [app] in *.
    repeat split; try assumption.
    intros _. destruct obs as [|ob' obs]; [reflexivity|].
    apply Hsome. discriminate.
Qed.

(** X1. Appending the items of a list one after the other leaves the items
    the collection had, in their order, followed by the new ones in theirs;
    the list is allocated as soon as one item is appended; neither
    [TotalItems] nor any other field changes, and no append returns an
    error. *)
Theorem Collection_Append_each (c : Collection) (obs : list Item) :
  let c' := append_each c obs in
  elems (Collection.Items c') = elems (Collection.Items c) ++ obs /\
  (obs <> [] ->
   Collection.Items c' = Some (elems (Collection.Items c) ++ obs)) /\
  Collection.TotalItems c' = Collection.TotalItems c /\
  Collection_as_Object c' = Collection_as_Object c /\
  Collection.Current c' = Collection.Current c /\
  Collection.First c' = Collection.First c /\
  Collection.Last c' = Collection.Last c /\
  (forall ob, snd (Collection_Append c ob) = NoError).
Proof.
  cbn zeta.
  destruct (append_each_fields c obs)
    as (Hitems & Hsome & Htotal & Hobj & Hcur & Hfirst & Hlast).
  repeat split; assumption.
Qed.

(** X2. [Append] does not touch [TotalItems]: the count of a collection
    whose total is zero grows by one with each append, while that of a
    collection with a total stays at the total.  A new collection to which
    the items of a list were appended counts the length of the list. *)
Theorem Collection_Count_Append (c : Collection) (ob : Item) :
  let c' := fst (Collection_Append c ob) in
  (Collection.TotalItems c = 0%N ->
   Collection_Count c' = (Collection_Count c + 1)%N) /\
  (Collection.TotalItems c <> 0%N ->
   Collection_Count c' = Collection_Count c /\
   Collection_Count c' = Collection.TotalItems c) /\
  (forall (id : ID) (obs : list Item),
      Collection_Count (append_each (CollectionNew id) obs)
      = N.of_nat (length obs)).
Proof.
  cbn zeta. split; [|split].
  - intros Hz. unfold Collection_Count.
    cbn [Collection_Append fst Collection.TotalItems]. rewrite Hz.
    rewrite N.ltb_irrefl, !uint_of_len_length. cbn [Collection.Items elems].
    rewrite length_app. cbn [length]. lia.
  - intros Hnz. unfold Collection_Count.
    cbn [Collection_Append fst Collection.TotalItems].
    destruct (N.ltb_spec 0 (Collection.TotalItems c)); [now split|lia].
  - intros id obs.
    destruct (append_each_fields (CollectionNew id) obs)
      as (Hitems & _ & Htotal & _).
    unfold Collection_Count. rewrite Htotal.
    cbn [CollectionNew Collection.TotalItems Collection.zero].
    rewrite N.ltb_irrefl, uint_of_len_length, Hitems. reflexivity.
Qed.

Lemma Contains_loop_app (r : IRI) (l1 l2 : list Item) :
  Contains_loop r (l1 ++ l2) = Contains_loop r l1 || Contains_loop r l2.
Proof.
  induction l1 as [|x l1 IH]; [reflexivity|]. cbn.
  now destruct (Equals r (Item_GetLink x) false).
Qed.

Lemma Contains_loop_existsb (r : IRI) (l : list Item) :
  Contains_loop r l
  = existsb (fun ob => Equals r (Item_GetLink ob) false) l.
Proof.
  induction l as [|x l IH]; [reflexivity|]. cbn.
  now destruct (Equals r (Item_GetLink x) false).
Qed.

Lemma Collection_Contains_loop (c : Collection) (r : IRI) :
  Collection_Contains c r = Contains_loop r (elems (Collection.Items c)).
Proof.
  unfold Collection_Contains.
  destruct (Collection.Items c) as [[|x l]|]; reflexivity.
Qed.

(** X3. A collection contains [r] after an append exactly when it did
    before or the link of the appended item equals [r] in the tolerant
    mode; so appending never removes a member, and after appending the
    items of a list the members are the old ones and those of the list. *)
Theorem Collection_Contains_Append (c : Collection) (r : IRI) :
  (forall ob : Item,
      Collection_Contains (fst (Collection_Append c ob)) r
      = Collection_Contains c r || Equals r (Item_GetLink ob) false) /\
  (forall obs : list Item,
      Collection_Contains (append_each c obs) r
      = Collection_Contains c r
        || existsb (fun ob => Equals r (Item_GetLink ob) false) obs).
Proof.
  split.
  - intros ob. rewrite !Collection_Contains_loop, Collection_Append_items.
    cbn [elems]. rewrite Contains_loop_app. cbn.
    now destruct (Equals r (Item_GetLink ob) false).
  - intros obs. rewrite !Collection_Contains_loop.
    destruct (append_each_fields c obs) as (-> & _).
    now rewrite Contains_loop_app, (Contains_loop_existsb r obs).
Qed.

(** X4. A collection that contains some identifier does not count zero. *)
Theorem Collection_Contains_Count (c : Collection) (r : IRI) :
  Collection_Contains c r = true -> (0 < Collection_Count c)%N.
Proof.
  rewrite Collection_Contains_loop. intros Hin. unfold Collection_Count.
  destruct (N.ltb_spec 0 (Collection.TotalItems c)) as [Hpos|_];
    [assumption|].
  rewrite uint_of_len_length.
  destruct (elems (Collection.Items c)); [discriminate|cbn; lia].
Qed.

(** X5. [Count] is at most the greater of [TotalItems] and the number of
    items, and is the greater of the two exactly when [TotalItems] is zero
    or not smaller than the number of items: a positive total that is
    smaller than the number of items is what is returned. *)
Theorem Collection_Count_max (c : Collection) :
  let n := N.of_nat (length (elems (Collection.Items c))) in
  (Collection_Count c <= N.max (Collection.TotalItems c) n)%N /\
  (Collection_Count c = N.max (Collection.TotalItems c) n <->
   Collection.TotalItems c = 0%N \/ (n <= Collection.TotalItems c)%N) /\
  ((0 < Collection.TotalItems c < n)%N ->
   (Collection_Count c < n)%N).
Proof.
  cbn zeta. unfold Collection_Count. rewrite uint_of_len_length.
  destruct (N.ltb_spec 0 (Collection.TotalItems c)); lia.
Qed.

(** ** Actors, again *)

(** X6. [Clean] is idempotent, it leaves exactly the actors without [Bto]
    and [BCC] as they are, and an actor that [ActorNew] returns is one of
    them. *)
Theorem Actor_Clean_idempotent (a : Actor) :
  Actor_Clean (Actor_Clean a) = Actor_Clean a /\
  (Actor_Clean a = a <-> Actor.Bto a = None /\ Actor.BCC a = None) /\
  (forall (id : ID) (typ : ActivityVocabularyType),
      Actor_Clean (ActorNew id typ) = ActorNew id typ).
Proof.
  split; [reflexivity|]. split; [|reflexivity].
  destruct a; cbn. split.
  - intros H. now injection H as <- <-.
  - now intros [-> ->].
Qed.

(** ** View conversions, again *)


(** ** Public keys, again *)

(** X8. A failed decode of a public key leaves the receiver written in
    part: nothing is written when [id] fails, the id alone when [owner]
    fails, and the id and the owner when [publicKeyPem] fails; the fields
    not reached keep what the receiver held.  The error does not depend on
    the receiver, and neither does the record of a decode that succeeds. *)
Theorem PublicKey_UnmarshalJSON_partial (p : PublicKey.t Item)
    (data : Data) :
  let r := PublicKey_UnmarshalJSON p data in
  (snd (GetString data "id") <> NoError -> fst r = p) /\
  (snd (GetString data "id") = NoError ->
   snd (GetString data "owner") <> NoError ->
   fst r = PublicKey.mk (fst (GetString data "id")) (PublicKey.Owner p)
             (PublicKey.PublicKeyPem p)) /\
  (snd (GetString data "id") = NoError ->
   snd (GetString data "owner") = NoError ->
   snd (GetString data "publicKeyPem") <> NoError ->
   fst r = PublicKey.mk (fst (GetString data "id"))
             (Some (ItIRI (fst (GetString data "owner"))))
             (PublicKey.PublicKeyPem p)) /\
  (forall p', snd (PublicKey_UnmarshalJSON p' data) = snd r) /\
  (forall p', snd r = NoError ->
              fst (PublicKey_UnmarshalJSON p' data) = fst r).
Proof.
  cbn zeta. unfold PublicKey_UnmarshalJSON.
  destruct (GetString data "id") as [id [|e1]];
    destruct (GetString data "owner") as [o [|e2]];
    destruct (GetString data "publicKeyPem") as [pub [|e3]]; cbn;
    repeat split; intros; try congruence; try discriminate.
Qed.

(** ** Decoding, again *)

Lemma assign_if_nonempty_twice (got old : ItemCollection) :
  assign_if_nonempty got (assign_if_nonempty got old)
  = assign_if_nonempty got old.
Proof. unfold assign_if_nonempty. now destruct (0 <? len got). Qed.

(** X9. Decoding is idempotent: a second decode of the same document into
    the receiver and with the registry that the first one left returns
    what the first one returned.  The registry is set to the default when
    it is nil and is otherwise left as it is. *)
Theorem UnmarshalJSON_idempotent (ItemTyperFunc : option ItemTyper)
    (data : Data) :
  (forall a : Actor,
      let r := Actor_UnmarshalJSON ItemTyperFunc a data in
      Actor_UnmarshalJSON (fst (fst r)) (snd (fst r)) data = r) /\
  (forall c : Collection,
      let r := Collection_UnmarshalJSON ItemTyperFunc c data in
      Collection_UnmarshalJSON (fst (fst r)) (snd (fst r)) data = r) /\
  (forall (a : Actor) (c : Collection),
      fst (fst (Actor_UnmarshalJSON ItemTyperFunc a data))
      = Some (default JSONGetItemByType ItemTyperFunc) /\
      fst (fst (Collection_UnmarshalJSON ItemTyperFunc c data))
      = Some (default JSONGetItemByType ItemTyperFunc)).
Proof.
  split; [|split].
  - intros a. cbn zeta. unfold Actor_UnmarshalJSON.
    cbn [fst snd default Actor.InReplyTo Actor.To Actor.Audience Actor.Bto
         Actor.CC Actor.BCC Actor.Replies Actor.Tag].
    rewrite !assign_if_nonempty_twice.
    destruct (0 <? len (JSONGetItems _ data "inReplyTo"));
      destruct (JSONGetItem _ data "replies"); reflexivity.
  - intros c. cbn zeta. unfold Collection_UnmarshalJSON.
    cbn [fst snd default Collection.InReplyTo Collection.To
         Collection.Audience Collection.Bto Collection.CC Collection.BCC
         Collection.Replies Collection.Tag Collection.Likes
         Collection.Shares Collection.Source].
    rewrite !assign_if_nonempty_twice.
    destruct (0 <? len (JSONGetItems _ data "inReplyTo"));
      destruct (JSONGetItem _ data "replies"); reflexivity.
  - intros a c. split; reflexivity.
Qed.

Lemma assign_if_nonempty_got (got old : ItemCollection) :
  0 < len got -> assign_if_nonempty got old = got.
Proof.
  intros H. unfold assign_if_nonempty.
  now destruct (Z.ltb_spec 0 (len got)); [|lia].
Qed.

(** X10. Of the receiver, a decode sees only the fields it assigns under a
    guard (and, for a collection, the three it does not assign): the
    result is that of decoding into the zero value with those fields of the
    receiver.  When the document has a value that is not empty for each of
    the eight guarded fields of an actor, the result does not depend on the
    receiver at all. *)
Theorem UnmarshalJSON_receiver (ItemTyperFunc : option ItemTyper)
    (data : Data) :
  let typer := default JSONGetItemByType ItemTyperFunc in
  (forall a : Actor,
      Actor_UnmarshalJSON ItemTyperFunc a data
      = Actor_UnmarshalJSON ItemTyperFunc (Actor_guarded_only a) data) /\
  (forall c : Collection,
      Collection_UnmarshalJSON ItemTyperFunc c data
      = Collection_UnmarshalJSON ItemTyperFunc (Collection_kept_only c)
          data) /\
  (0 < len (JSONGetItems typer data "inReplyTo") ->
   0 < len (JSONGetItems typer data "to") ->
   0 < len (JSONGetItems typer data "audience") ->
   0 < len (JSONGetItems typer data "bto") ->
   0 < len (JSONGetItems typer data "cc") ->
   0 < len (JSONGetItems typer data "bcc") ->
   0 < len (JSONGetItems typer data "tag") ->
   JSONGetItem typer data "replies" <> None ->
   forall a a' : Actor,
     Actor_UnmarshalJSON ItemTyperFunc a data
     = Actor_UnmarshalJSON ItemTyperFunc a' data).
Proof.
  cbn zeta. split; [reflexivity|]. split; [reflexivity|].
  intros Hr Hto Haud Hbto Hcc Hbcc Htag Hrep a a'.
  unfold Actor_UnmarshalJSON.
  rewrite !assign_if_nonempty_got by assumption.
  destruct (Z.ltb_spec 0 (len (JSONGetItems
              (default JSONGetItemByType ItemTyperFunc) data "inReplyTo")));
    [|lia].
  destruct (JSONGetItem (default JSONGetItemByType ItemTyperFunc) data
              "replies"); [reflexivity|congruence].
Qed.

Lemma mod_of_negative (z : Z) :
  - 2 ^ 63 <= z < 0 -> z mod 2 ^ 64 = z + 2 ^ 64.
Proof.
  intros Hz. symmetry. apply Z.mod_unique with (q := -1); [left|]; lia.
Qed.

Lemma int_of_uint_of_int (z : Z) :
  int64_range z -> int_of_uint (uint_of_int z) = z.
Proof.
  unfold int64_range, int_of_uint, uint_of_int. intros Hz.
  destruct (Z_lt_le_dec z 0) as [Hneg|Hpos].
  - rewrite (mod_of_negative z) by lia. rewrite Z2N.id by lia.
    rewrite Z.mod_small by lia.
    destruct (Z.ltb_spec (z + 2 ^ 64) (2 ^ 63)); lia.
  - rewrite (Z.mod_small z) by lia. rewrite Z2N.id by lia.
    rewrite Z.mod_small by lia.
    destruct (Z.ltb_spec z (2 ^ 63)); lia.
Qed.

(** X11. The count of a collection is decoded through a conversion to an
    unsigned integer: for [z] the integer read under [totalItems], a
    positive [z] is the count of the decoded collection, a negative [z]
    makes the count [z + 2^64], which is at least [2^63] whatever the
    items are, and zero leaves the number of items decoded.  The encoder
    converts back, and hands [z] itself to the writer of [totalItems]. *)
Theorem Collection_decode_totalItems (ItemTyperFunc : option ItemTyper)
    (c : Collection) (data : Data) :
  let typer := default JSONGetItemByType ItemTyperFunc in
  let z := JSONGetInt data "totalItems" in
  let c' := snd (fst (Collection_UnmarshalJSON ItemTyperFunc c data)) in
  int64_range z ->
  (0 < z -> Collection_Count c' = Z.to_N z) /\
  (z < 0 ->
   Collection_Count c' = Z.to_N (z + 2 ^ 64) /\
   (2 ^ 63 <= Collection_Count c')%N) /\
  (z = 0 ->
   Collection_Count c'
   = N.of_nat (length (elems (JSONGetItems typer data "items")))) /\
  int_of_uint (Collection.TotalItems c') = z /\
  (forall (b : list byte) (notEmpty : bool),
      write_total_step (Collection.TotalItems c') (b, notEmpty)
      = (fst (writeIntProp (writeCommaIfNotEmpty b notEmpty) "totalItems" z),
         snd (writeIntProp (writeCommaIfNotEmpty b notEmpty) "totalItems" z)
         || notEmpty)).
Proof.
  cbn zeta. intros Hz.
  pose proof (int_of_uint_of_int _ Hz) as Hround.
  unfold Collection_Count, Collection_UnmarshalJSON.
  cbn [fst snd Collection.TotalItems Collection.Items].
  unfold int64_range in Hz.
  set (z := JSONGetInt data "totalItems") in *.
  repeat split.
  - intros Hpos. unfold uint_of_int. rewrite Z.mod_small by lia.
    destruct (N.ltb_spec 0 (Z.to_N z)); [reflexivity|lia].
  - unfold uint_of_int. rewrite (mod_of_negative z) by lia.
    destruct (N.ltb_spec 0 (Z.to_N (z + 2 ^ 64))); [reflexivity|lia].
  - unfold uint_of_int. rewrite (mod_of_negative z) by lia.
    destruct (N.ltb_spec 0 (Z.to_N (z + 2 ^ 64))); lia.
  - intros Hzero. rewrite Hzero. apply uint_of_len_length.
  - assumption.
  - intros b notEmpty. unfold write_total_step. rewrite Hround.
    now destruct (writeIntProp _ "totalItems" _).
Qed.

(** ** Encoding, again *)

Lemma write_item_step_keeps_flag (n : string) (f : option Item)
    (b : list byte) :
  snd (write_item_step n f (b, true)) = true.
Proof.
  unfold write_item_step. destruct f as [it|]; [|reflexivity].
  destruct (writeItemProp _ n it) as [b' w]. cbn. apply orb_true_r.
Qed.

Lemma write_items_step_keeps_flag (items : ItemCollection) (b : list byte) :
  snd (write_items_step items (b, true)) = true.
Proof.
  unfold write_items_step. destruct items as [l|]; [|reflexivity].
  destruct (writeItemCollectionProp _ "items" (Some l)) as [b' w]. cbn.
  apply orb_true_r.
Qed.

(** X12. The comma before [totalItems] is written before the property is:
    when the common part has reported output and the writer of
    [totalItems] appends nothing for the count, the encoding ends in a
    comma and the closing brace. *)
Theorem Collection_MarshalJSON_trailing_comma (c : Collection) :
  snd (writeObject [x7b] (Collection_as_Object c)) = true ->
  (forall b, fst (writeIntProp b "totalItems"
                    (int_of_uint (Collection.TotalItems c))) = b) ->
  exists b, Collection_MarshalJSON c = (Some (b ++ [x2c; x7d]), NoError).
Proof.
  intros Hobj Htotal.
  unfold Collection_MarshalJSON, Collection_MarshalJSON_body, OnObject.
  cbn [ToObject].
  destruct (writeObject [x7b] (Collection_as_Object c)) as [b0 w0].
  cbn in Hobj. subst w0.
  pose proof (write_item_step_keeps_flag "current" (Collection.Current c) b0)
    as H1.
  destruct (write_item_step "current" _ (b0, true)) as [b1 w1].
  cbn in H1. subst w1.
  pose proof (write_item_step_keeps_flag "first" (Collection.First c) b1)
    as H2.
  destruct (write_item_step "first" _ (b1, true)) as [b2 w2].
  cbn in H2. subst w2.
  pose proof (write_item_step_keeps_flag "last" (Collection.Last c) b2)
    as H3.
  destruct (write_item_step "last" _ (b2, true)) as [b3 w3].
  cbn in H3. subst w3.
  pose proof (write_items_step_keeps_flag (Collection.Items c) b3) as H4.
  destruct (write_items_step _ (b3, true)) as [b4 w4].
  cbn in H4. subst w4.
  unfold write_total_step. cbn [writeCommaIfNotEmpty]. unfold writeComma.
  specialize (Htotal (b4 ++ [x2c])).
  destruct (writeIntProp (b4 ++ [x2c]) "totalItems" _) as [b5 w5].
  cbn in Htotal. subst b5. rewrite orb_true_r.
  exists b4. now rewrite <- app_assoc.
Qed.

Section AppendOnlyWriters.

(** The writers append to the buffer, and what they append and report does
    not depend on what the buffer holds. *)
Hypothesis writeObject_frame : forall b o,
  writeObject b o = (b ++ fst (writeObject [] o), snd (writeObject [] o)).
Hypothesis writeItemProp_frame : forall b n it,
  writeItemProp b n it
  = (b ++ fst (writeItemProp [] n it), snd (writeItemProp [] n it)).
Hypothesis writeItemCollectionProp_frame : forall b n col,
  writeItemCollectionProp b n col
  = (b ++ fst (writeItemCollectionProp [] n col),
     snd (writeItemCollectionProp [] n col)).
Hypothesis writeIntProp_frame : forall b n d,
  writeIntProp b n d
  = (b ++ fst (writeIntProp [] n d), snd (writeIntProp [] n d)).

Lemma write_item_step_flag (n : string) (f : option Item) (b : list byte)
    (notEmpty : bool) :
  snd (write_item_step n f (b, notEmpty)) = item_flag n f || notEmpty.
Proof using writeItemProp_frame.
  unfold write_item_step, item_flag. destruct f as [it|]; [|reflexivity].
  now rewrite writeItemProp_frame.
Qed.

Lemma write_items_step_flag (c : Collection) (b : list byte)
    (notEmpty : bool) :
  snd (write_items_step (Collection.Items c) (b, notEmpty))
  = items_flag c || notEmpty.
Proof using writeItemCollectionProp_frame.
  unfold write_items_step, items_flag.
  destruct (Collection.Items c) as [l|]; [|reflexivity].
  now rewrite writeItemCollectionProp_frame.
Qed.

Lemma Collection_MarshalJSON_body_flag (c : Collection) :
  snd (Collection_MarshalJSON_body c)
  = snd (writeIntProp [] "totalItems"
           (int_of_uint (Collection.TotalItems c)))
    || (items_flag c
        || (item_flag "last" (Collection.Last c)
            || (item_flag "first" (Collection.First c)
                || (item_flag "current" (Collection.Current c)
                    || snd (writeObject [] (Collection_as_Object c)))))).
Proof using writeObject_frame writeItemProp_frame
  writeItemCollectionProp_frame writeIntProp_frame.
  unfold Collection_MarshalJSON_body, OnObject. cbn [ToObject].
  rewrite writeObject_frame.
  pose proof (write_item_step_flag "current" (Collection.Current c)
                ([x7b] ++ fst (writeObject [] (Collection_as_Object c)))
                (snd (writeObject [] (Collection_as_Object c)))) as H1.
  destruct (write_item_step "current" _ _) as [b1 w1]. cbn [snd] in H1.
  pose proof (write_item_step_flag "first" (Collection.First c) b1 w1)
    as H2.
  destruct (write_item_step "first" _ _) as [b2 w2]. cbn [snd] in H2.
  pose proof (write_item_step_flag "last" (Collection.Last c) b2 w2) as H3.
  destruct (write_item_step "last" _ _) as [b3 w3]. cbn [snd] in H3.
  pose proof (write_items_step_flag c b3 w3) as H4.
  destruct (write_items_step _ _) as [b4 w4]. cbn [snd] in H4.
  unfold write_total_step. rewrite writeIntProp_frame. cbn [snd].
  now subst.
Qed.

(** X13. With writers that only append, [MarshalJSON] returns the nil
    slice exactly when no write reports output, and it returns bytes that
    end in the closing brace otherwise; it returns the nil error in both
    cases. *)
Theorem Collection_MarshalJSON_nil_iff (c : Collection) :
  (fst (Collection_MarshalJSON c) = None <-> writes_nothing c) /\
  (fst (Collection_MarshalJSON c) = None \/
   exists b, fst (Collection_MarshalJSON c) = Some (b ++ [x7d])) /\
  snd (Collection_MarshalJSON c) = NoError.
Proof using writeObject_frame writeItemProp_frame
  writeItemCollectionProp_frame writeIntProp_frame.
  pose proof (Collection_MarshalJSON_body_flag c) as Hflag.
  unfold Collection_MarshalJSON.
  destruct (Collection_MarshalJSON_body c) as [b w]. cbn [snd] in Hflag.
  split; [|split].
  - unfold writes_nothing. split.
    + intros Hnone. destruct w; [discriminate|].
      symmetry in Hflag.
      repeat (apply orb_false_elim in Hflag;
              destruct Hflag as [?Hf Hflag]).
      unfold item_flag, items_flag in *.
      repeat split; intros.
      * now rewrite writeObject_frame.
      * rewrite writeItemProp_frame. cbn [snd].
        destruct (Collection.Current c); congruence.
      * rewrite writeItemProp_frame. cbn [snd].
        destruct (Collection.First c); congruence.
      * rewrite writeItemProp_frame. cbn [snd].
        destruct (Collection.Last c); congruence.
      * rewrite writeItemCollectionProp_frame. cbn [snd].
        destruct (Collection.Items c); congruence.
      * now rewrite writeIntProp_frame.
    + intros (Hobj & Hcur & Hfirst & Hlast & Hitems & Htotal).
      assert (Hw : w = false).
      { rewrite Hflag, (Htotal []), (Hobj []).
        unfold item_flag, items_flag.
        destruct (Collection.Current c) as [i1|];
          [rewrite (Hcur [] i1 eq_refl)|];
          destruct (Collection.First c) as [i2|];
          [rewrite (Hfirst [] i2 eq_refl)| |rewrite (Hfirst [] i2 eq_refl)|];
          destruct (Collection.Last c) as [i3|];
          try rewrite (Hlast [] i3 eq_refl);
          destruct (Collection.Items c) as [l|];
          try rewrite (Hitems []) by discriminate; reflexivity. }
      now rewrite Hw.
  - destruct w; [right; now exists b|now left].
  - now destruct w.
Qed.

End AppendOnlyWriters.

End Vocabulary.

(** * The operations on concrete inputs *)

Local Open Scope list_scope.

Abbreviation sample_Actor_UnmarshalJSON :=
  (Actor_UnmarshalJSON SampleDoc unit tt sample_JSONGetID sample_JSONGetType
     sample_JSONGetNaturalLanguageField sample_JSONGetString
     sample_JSONGetTime sample_JSONGetDuration sample_JSONGetItem
     sample_JSONGetItem sample_JSONGetItems sample_GetAPSource
     sample_JSONGetActorEndpoints sample_JSONGetStreams
     sample_JSONGetPublicKey).

Abbreviation sample_MarshalJSON :=
  (Collection_MarshalJSON sample_writeObject sample_writeItemProp
     sample_writeItemCollectionProp sample_writeIntProp).

Abbreviation sample_MarshalJSON_body :=
  (Collection_MarshalJSON_body sample_writeObject sample_writeItemProp
     sample_writeItemCollectionProp sample_writeIntProp).

(** The document [{"type":"Person","id":"https://x/a"}]. *)
Abbreviation person_doc :=
  [("type", VString "Person"); ("id", VString "https://x/a")].

(** Decoding the person of the spec into a new actor: no error, the id and
    the type are read, and every other field is the zero value. *)
Example decode_person :
  sample_Actor_UnmarshalJSON None Actor.zero person_doc
  = (Some tt,
     Actor.mk "https://x/a" "Person" [] None None None [] None "" 0 None
       None None None None None 0 None 0 [] None 0 None None None None None
       0 None None Source.zero None None None None None [] None None
       PublicKey.zero,
     NoError).
Proof. reflexivity. Qed.


(** The view conversions on the decoded person. *)
Example person_views :
  let person :=
    Some (ItActor Ptr
            (snd (fst (sample_Actor_UnmarshalJSON None Actor.zero
                         person_doc)))) in
  (exists a, ToActor sample_past_Object person = (Some a, NoError) /\
             Actor.ID a = "https://x/a") /\
  ToCollection person = (None, Err "unable to convert to collection").
Proof. split; [eexists; split|]; reflexivity. Qed.

(** Public keys: all three fields, then one without [owner], then one whose
    [id] is a number. *)
Example decode_public_key :
  PublicKey_UnmarshalJSON SampleDoc sample_GetString PublicKey.zero
    [("id", VString "https://x/a#key"); ("owner", VString "https://x/a");
     ("publicKeyPem", VString "PEM")]
  = (PublicKey.mk "https://x/a#key" (Some (ItIRI "https://x/a")) "PEM",
     NoError) /\
  snd (PublicKey_UnmarshalJSON SampleDoc sample_GetString PublicKey.zero
         [("id", VString "https://x/a#key"); ("publicKeyPem", VString "PEM")])
  = Err "Key path not found" /\
  snd (PublicKey_UnmarshalJSON SampleDoc sample_GetString PublicKey.zero
         [("id", VNumber 7); ("owner", VString "https://x/a");
          ("publicKeyPem", VString "PEM")])
  = Err "Value is not a string".
Proof. repeat split. Qed.

(** The tolerant comparison in [Contains]. *)
Example contains_tolerant :
  Collection_Contains sample_Equals (fun _ => "")
    (counted 0 (Some [ItIRI "https://x/1"; ItIRI "https://x/2/"]))
    "https://x/2" = true /\
  Collection_Contains sample_Equals (fun _ => "")
    (counted 0 (Some [ItIRI "https://x/1"])) "https://x/2" = false /\
  Collection_Contains sample_Equals (fun _ => "") (counted 4 None)
    "https://x/2" = false.
Proof. repeat split. Qed.

(** The encoder with nothing to write: an empty, allocated list of items
    and a count of zero. *)
Lemma Collection_MarshalJSON_nothing_written_witness :
  sample_MarshalJSON (counted 0 (Some [])) = (None, NoError).
Proof.
  apply Collection_MarshalJSON_nothing_written.
  unfold writes_nothing. repeat split; intros; try discriminate; reflexivity.
Defined.

(** The sample writers append to the buffer whatever it holds, and write
    nothing for an empty list or a zero. *)
Lemma sample_writers_append :
  (forall b o,
      sample_writeObject b o
      = (b ++ fst (sample_writeObject [] o), snd (sample_writeObject [] o)))
  /\
  (forall b n it,
      sample_writeItemProp b n it
      = (b ++ fst (sample_writeItemProp [] n it),
         snd (sample_writeItemProp [] n it))) /\
  (forall b n col,
      sample_writeItemCollectionProp b n col
      = (b ++ fst (sample_writeItemCollectionProp [] n col),
         snd (sample_writeItemCollectionProp [] n col))) /\
  (forall b n d,
      sample_writeIntProp b n d
      = (b ++ fst (sample_writeIntProp [] n d),
         snd (sample_writeIntProp [] n d))) /\
  (forall n col,
      len col = 0 -> fst (sample_writeItemCollectionProp [] n col) = []) /\
  (forall n, fst (sample_writeIntProp [] n 0) = []).
Proof.
  repeat split.
  - intros b o. unfold sample_writeObject.
    destruct (String.eqb (Object.ID o) ""); cbn [fst snd];
      now rewrite ?app_nil_r.
  - intros b n col. unfold sample_writeItemCollectionProp.
    destruct (len col =? 0); cbn [fst snd]; now rewrite ?app_nil_r.
  - intros b n d. unfold sample_writeIntProp.
    destruct (d =? 0); cbn [fst snd]; now rewrite ?app_nil_r.
  - intros n col Hlen. unfold sample_writeItemCollectionProp.
    now rewrite Hlen.
Qed.


(** ** The further properties on concrete inputs *)

Abbreviation sample_Collection_UnmarshalJSON :=
  (Collection_UnmarshalJSON SampleDoc unit tt sample_JSONGetID
     sample_JSONGetType sample_JSONGetNaturalLanguageField
     sample_JSONGetString sample_JSONGetTime sample_JSONGetDuration
     sample_JSONGetInt sample_JSONGetItem sample_JSONGetItem
     sample_JSONGetItems).

(** A collection that contains an IRI counts at least one element. *)
Lemma Collection_Contains_Count_witness :
  Collection_Contains sample_Equals (fun _ => "")
    (counted 0 (Some [ItIRI "https://x/1/"])) "https://x/1" = true /\
  (0 < Collection_Count (counted 0 (Some [ItIRI "https://x/1/"])))%N.
Proof.
  split; [reflexivity|].
  apply (Collection_Contains_Count sample_Equals (fun _ => "")
           (counted 0 (Some [ItIRI "https://x/1/"])) "https://x/1").
  reflexivity.
Defined.

(** The document [{"totalItems":-1}] decodes to a collection that counts
    [2^64 - 1] elements, and whose total is written back as [-1]. *)
Lemma Collection_decode_totalItems_witness :
  let c' :=
    snd (fst (sample_Collection_UnmarshalJSON None Collection.zero
                [("totalItems", VNumber (-1))])) in
  int64_range (-1) /\
  Collection_Count c' = 18446744073709551615%N /\
  int_of_uint (Collection.TotalItems c') = -1.
Proof.
  cbn zeta.
  assert (Hrange : int64_range (-1)) by (unfold int64_range; lia).
  split; [exact Hrange|].
  destruct (Collection_decode_totalItems SampleDoc unit tt sample_JSONGetID
              sample_JSONGetType sample_JSONGetNaturalLanguageField
              sample_JSONGetString sample_JSONGetTime
              sample_JSONGetDuration sample_JSONGetInt sample_JSONGetItem
              sample_JSONGetItem sample_JSONGetItems sample_writeIntProp
              None Collection.zero [("totalItems", VNumber (-1))] Hrange)
    as (_ & Hneg & _ & Hback & _).
  split; [|exact Hback].
  destruct Hneg as [Hcount _]; [reflexivity|exact Hcount].
Defined.

(** A new collection with the sample writers: only the id is written, and
    the encoding is [{"id":"https://x/c",}]. *)
Lemma Collection_MarshalJSON_trailing_comma_witness :
  let c := CollectionNew "Collection" "https://x/c" in
  snd (sample_writeObject [x7b] (Collection_as_Object c)) = true /\
  sample_MarshalJSON c
  = (Some (list_byte_of_string "{" ++ sample_key "id"
           ++ sample_quoted "https://x/c" ++ list_byte_of_string ",}"),
     NoError) /\
  exists b, sample_MarshalJSON c = (Some (b ++ [x2c; x7d]), NoError).
Proof.
  cbn zeta. split; [reflexivity|]. split; [reflexivity|].
  apply (Collection_MarshalJSON_trailing_comma sample_writeObject
           sample_writeItemProp sample_writeItemCollectionProp
           sample_writeIntProp (CollectionNew "Collection" "https://x/c")).
  - reflexivity.
  - intros b. reflexivity.
Defined.

(** The sample writers only append, and with them a collection of one item
    is encoded to bytes while a collection without anything is not. *)
Lemma Collection_MarshalJSON_nil_iff_witness :
  let c := counted 1 (Some [ItIRI "https://x/1"]) in
  ((fst (sample_MarshalJSON c) = None <->
    writes_nothing sample_writeObject sample_writeItemProp
      sample_writeItemCollectionProp sample_writeIntProp c) /\
   (fst (sample_MarshalJSON c) = None \/
    exists b, fst (sample_MarshalJSON c) = Some (b ++ [x7d])) /\
   snd (sample_MarshalJSON c) = NoError) /\
  sample_MarshalJSON c
  = (Some (list_byte_of_string "{" ++ sample_key "items" ++ [x5b]
           ++ sample_quoted "https://x/1" ++ [x5d] ++ [x2c]
           ++ sample_key "totalItems" ++ list_byte_of_string "1"
           ++ list_byte_of_string "}"), NoError).
Proof.
  cbn zeta. split; [|reflexivity].
  destruct sample_writers_append as (H1 & H2 & H3 & H4 & _ & _).
  exact (Collection_MarshalJSON_nil_iff sample_writeObject
           sample_writeItemProp sample_writeItemCollectionProp
           sample_writeIntProp H1 H2 H3 H4
           (counted 1 (Some [ItIRI "https://x/1"]))).
Defined.
